(** * OCPP sample client/server: session admission, role logic and teardown

    A shallow embedding of [server.py], [client.py] and [settings.py].
    Python coroutines are written in a state-and-exception monad over the
    object they belong to; every [await] on the transport, on the event loop
    or on the peer is a step whose result is supplied by the environment. *)

From Stdlib Require Import ZArith NArith Ascii String List Lia Bool.
From stdpp Require Import base option list gmap strings.

Import ListNotations.
Local Open Scope string_scope.
Local Open Scope Z_scope.

(** ** Python values used by the two programs *)

Module Py.

(** The exception classes that the sources raise or catch.  [RuntimeError]
    and [WebSocketException] stand for the class and its subclasses, which
    is how an [except] clause sees them. *)
Inductive exn : Type :=
| KeyError (key : string)
| AssertionError
| AttributeError (what : string)
| RuntimeError (msg : string)
| TimeoutError
| WebSocketException (msg : string)
| CancelledError
| OtherError (name msg : string).

Inductive outcome (A : Type) : Type :=
| Normal (a : A)
| Raised (e : exn).
Arguments Normal {A} a.
Arguments Raised {A} e.

(** A computation over a mutable object of type [S]: the state reached is
    kept when an exception is raised, as in Python. *)
Definition M (S A : Type) : Type := S -> S * outcome A.

Definition ret {S A} (a : A) : M S A := fun s => (s, Normal a).
Definition raise {S A} (e : exn) : M S A := fun s => (s, Raised e).
Definition bind {S A B} (m : M S A) (k : A -> M S B) : M S B :=
  fun s =>
    match m s with
    | (s1, Normal a) => k a s1
    | (s1, Raised e) => (s1, Raised e)
    end.
Definition get {S} : M S S := fun s => (s, Normal s).
Definition modify {S} (f : S -> S) : M S unit := fun s => (f s, Normal tt).

(** [try: body except ...: handler].  [handlers e] is [None] when no
    [except] clause matches [e]. *)
Definition try_except {S A} (body : M S A) (handlers : exn -> option (M S A))
  : M S A :=
  fun s =>
    match body s with
    | (s1, Normal a) => (s1, Normal a)
    | (s1, Raised e) =>
        match handlers e with
        | Some h => h s1
        | None => (s1, Raised e)
        end
    end.

(** [try: body finally: fin]. *)
Definition try_finally {S A} (body : M S A) (fin : M S unit) : M S A :=
  fun s =>
    match body s with
    | (s1, r) =>
        match fin s1 with
        | (s2, Normal _) => (s2, r)
        | (s2, Raised e) => (s2, Raised e)
        end
    end.

(** [async with cm as x: body], for a context manager whose [__aexit__]
    returns [None]: the exit always runs, and an exception it raises
    replaces the one of the body. *)
Definition async_with {S A B} (aenter : M S A) (aexit : M S unit)
    (body : A -> M S B) : M S B :=
  bind aenter (fun x => try_finally (body x) aexit).

#[global] Instance M_ret {S} : MRet (M S) := @ret S.
#[global] Instance M_bind {S} : MBind (M S) := fun A B k m => bind m k.

(** ** Strings *)

Fixpoint contains_char (c : ascii) (s : string) : bool :=
  match s with
  | EmptyString => false
  | String a s' => if Ascii.eqb a c then true else contains_char c s'
  end.

Fixpoint lstrip (c : ascii) (s : string) : string :=
  match s with
  | EmptyString => EmptyString
  | String a s' => if Ascii.eqb a c then lstrip c s' else s
  end.

Fixpoint rstrip (c : ascii) (s : string) : string :=
  match s with
  | EmptyString => EmptyString
  | String a s' =>
      match rstrip c s' with
      | EmptyString => if Ascii.eqb a c then EmptyString else String a EmptyString
      | r => String a r
      end
  end.

(** [s.strip(c)] for a one-character argument. *)
Definition strip (c : ascii) (s : string) : string := rstrip c (lstrip c s).

Fixpoint join (sep : string) (l : list string) : string :=
  match l with
  | [] => ""
  | [x] => x
  | x :: l' => x ++ sep ++ join sep l'
  end.

Definition hex_digit (n : N) : ascii :=
  match String.get (N.to_nat n) "0123456789abcdef" with
  | Some c => c
  | None => "0"%char
  end.

Definition dquote : ascii := ascii_of_N 34.
Definition backslash : ascii := ascii_of_N 92.

(** One character of [repr] of a [str] delimited by [q]. *)
Definition repr_char (q : ascii) (c : ascii) : string :=
  let n := N_of_ascii c in
  if Ascii.eqb c backslash then String backslash (String backslash EmptyString)
  else if Ascii.eqb c q then String backslash (String q EmptyString)
  else if (n =? 10)%N then String backslash "n"
  else if (n =? 13)%N then String backslash "r"
  else if (n =? 9)%N then String backslash "t"
  else if ((n <? 32) || (n =? 127))%N
       then String backslash (String "x"%char
              (String (hex_digit (n / 16)) (String (hex_digit (n mod 16)) EmptyString)))
  else String c EmptyString.

Fixpoint repr_body (q : ascii) (s : string) : string :=
  match s with
  | EmptyString => EmptyString
  | String c s' => repr_char q c ++ repr_body q s'
  end.

(** [repr] of a [str]: single quotes, unless the text has a single quote
    and no double quote.  Bytes above 127 belong to the UTF-8 encoding of a
    character and are kept. *)
Definition repr_str (s : string) : string :=
  let q := if contains_char "'"%char s && negb (contains_char dquote s)
           then dquote else "'"%char in
  String q (repr_body q s ++ String q EmptyString).

(** [repr] of a list of [str], which is what an f-string prints for it. *)
Definition repr_list (l : list string) : string :=
  "[" ++ join ", " (map repr_str l) ++ "]".

(** Truth value of an optional string: [None] and [''] are false. *)
Definition truthy (o : option string) : bool :=
  match o with
  | Some EmptyString => false
  | Some _ => true
  | None => false
  end.

(** [str(e)] for an exception built from one message argument. *)
Definition str_exn (e : exn) : string :=
  match e with
  | KeyError k => repr_str k
  | AttributeError m | RuntimeError m | WebSocketException m
  | OtherError _ m => m
  | AssertionError | TimeoutError | CancelledError => ""
  end.

End Py.


(** ** Basic credentials, as the transport library builds them *)

Module Base64.

Local Open Scope N_scope.

Definition alphabet : string :=
  "ABCDEFGHIJKLMNOPQRSTUVWXYZabcdefghijklmnopqrstuvwxyz0123456789+/".

Definition pad : ascii := "="%char.

Definition b64char (n : N) : ascii :=
  match String.get (N.to_nat n) alphabet with
  | Some c => c
  | None => pad
  end.

(** [base64.b64encode]: three bytes become four characters of the standard
    alphabet, and a last group of one or two bytes is padded with [=]. *)
Fixpoint b64encode (s : string) : string :=
  match s with
  | EmptyString => EmptyString
  | String a EmptyString =>
      let x := N_of_ascii a in
      String (b64char (x / 4))
        (String (b64char ((x mod 4) * 16)) (String pad (String pad EmptyString)))
  | String a (String b EmptyString) =>
      let x := N_of_ascii a * 256 + N_of_ascii b in
      String (b64char (x / 1024))
        (String (b64char ((x / 16) mod 64))
           (String (b64char ((x mod 16) * 4)) (String pad EmptyString)))
  | String a (String b (String c rest)) =>
      let x := N_of_ascii a * 65536 + N_of_ascii b * 256 + N_of_ascii c in
      String (b64char (x / 262144))
        (String (b64char ((x / 4096) mod 64))
           (String (b64char ((x / 64) mod 64))
              (String (b64char (x mod 64)) (b64encode rest))))
  end.

(** The inverse reading, used only to show that the encoding loses
    nothing. *)
Fixpoint index_from (k : N) (c : ascii) (s : string) : N :=
  match s with
  | EmptyString => k
  | String a s' => if Ascii.eqb a c then k else index_from (k + 1) c s'
  end.

Definition b64index (c : ascii) : N := index_from 0 c alphabet.

Fixpoint b64decode (s : string) : string :=
  match s with
  | String c0 (String c1 (String c2 (String c3 rest))) =>
      let i0 := b64index c0 in
      let i1 := b64index c1 in
      let i2 := b64index c2 in
      let i3 := b64index c3 in
      if Ascii.eqb c2 pad then
        String (ascii_of_N (i0 * 4 + i1 / 16)) EmptyString
      else if Ascii.eqb c3 pad then
        let x := i0 * 1024 + i1 * 16 + i2 / 4 in
        String (ascii_of_N (x / 256)) (String (ascii_of_N (x mod 256)) EmptyString)
      else
        let x := i0 * 262144 + i1 * 4096 + i2 * 64 + i3 in
        String (ascii_of_N (x / 65536))
          (String (ascii_of_N ((x / 256) mod 256))
             (String (ascii_of_N (x mod 256)) (b64decode rest)))
  | _ => EmptyString
  end.

(** The check, for one value below 64, that the alphabet can be read
    back and never yields the padding character. *)
Definition sextet_ok (k : nat) : bool :=
  let n := N.of_nat k in
  (b64index (b64char n) =? n) && negb (Ascii.eqb (b64char n) pad).

End Base64.

(** [websockets.headers.build_authorization_basic]; the library asserts that
    the user name holds no colon before it builds the header. *)
Definition build_authorization_basic (username password : string) : string :=
  "Basic " ++ Base64.b64encode (username ++ ":" ++ password).


(** ** [settings.py] *)

Module settings.
Definition WEBSOCKET_IP : string := "127.0.0.1".
Definition WEBSOCKET_PORT : string := "6000".
Definition OCPP_SUBPROTOCOLS : list string := ["ocpp2.0.1"].
End settings.

(** ** Logging *)

Inductive levelname : Type := INFO | WARNING | ERROR.

Record LogRecord : Type := { level : levelname; message : string }.

(** ** asyncio tasks *)

Module asyncio.

Inductive result : Type := returned | failed | cancelled.

(** A task is pending, pending with a cancellation requested, or done. *)
Inductive state : Type :=
| PENDING
| CANCELLING
| FINISHED (r : result).

(** [thrown] counts the [CancelledError]s thrown into the coroutine. *)
Record Task : Type := { _state : state; thrown : nat }.

Definition done (t : Task) : bool :=
  match _state t with FINISHED _ => true | _ => false end.

(** [Task.cancel()]: no effect on a task that is done; otherwise a
    [CancelledError] is arranged for the next cycle of the loop. *)
Definition cancel (t : Task) : Task * bool :=
  if done t then (t, false)
  else ({| _state := CANCELLING; thrown := thrown t |}, true).

(** What the next cycle of the loop does to a task whose cancellation was
    requested: the error is thrown into the coroutine, which ends. *)
Definition throw_cancelled (t : Task) : Task :=
  match _state t with
  | CANCELLING => {| _state := FINISHED cancelled; thrown := S (thrown t) |}
  | _ => t
  end.

(** A task that runs to its end. *)
Definition finish (r : result) (t : Task) : Task :=
  match _state t with
  | PENDING => {| _state := FINISHED r; thrown := thrown t |}
  | CANCELLING => throw_cancelled t
  | FINISHED _ => t
  end.

End asyncio.

(** ** OCPP payloads *)

Module ocpp.

Inductive RegistrationStatusType : Type := accepted | pending | rejected.

(** [call_result.BootNotificationPayload] *)
Record BootNotificationResult : Type :=
  { current_time : string; interval : Z; status : RegistrationStatusType }.

(** [call_result.StatusNotificationPayload()], which has no field set. *)
Inductive StatusNotificationResult : Type := StatusNotificationPayload.

(** The values that travel in a request. *)
Inductive value : Type :=
| VStr (s : string)
| VInt (n : Z)
| VDict (d : dict)
with dict : Type :=
| DEmpty
| DItem (key : string) (v : value) (rest : dict).

(** The [**kwargs] under which a handler receives the fields of a
    request. *)
Definition kwargs : Type := dict.

End ocpp.

(** ** [server.py] *)

Module server.

Import Py ocpp.

Definition USERNAME : string := "test".
Definition PASSWORD : string := "123".

Inductive HTTPStatus : Type := BAD_REQUEST | UNAUTHORIZED | FORBIDDEN.


(** The connection object the transport hands to [worker]; its request
    headers map a header name to the value sent for it. *)
Record WebSocketServerProtocol : Type :=
  { request_headers : gmap string string;
    subprotocol : option string;
    available_subprotocols : list string }.

Record CSMSServer : Type :=
  { id : string; _connection : WebSocketServerProtocol }.

(** The [Server] object, with what its methods read and write around it:
    the records logged so far (oldest first), the clock, and every
    [CSMSServer] that was constructed. *)
Record Server : Type :=
  { _task : option asyncio.Task;
    csms_server : option CSMSServer;
    records : list LogRecord;
    utcnow_isoformat : string;
    constructed : list CSMSServer }.

Definition log (l : levelname) (msg : string) : M Server unit :=
  modify (fun s =>
    {| _task := _task s; csms_server := csms_server s;
       records := records s ++ [{| level := l; message := msg |}];
       utcnow_isoformat := utcnow_isoformat s;
       constructed := constructed s |}).

Definition set_csms_server (c : CSMSServer) : M Server unit :=
  modify (fun s =>
    {| _task := _task s; csms_server := Some c; records := records s;
       utcnow_isoformat := utcnow_isoformat s;
       constructed := constructed s |}).

Definition set_task (t : asyncio.Task) : M Server unit :=
  modify (fun s =>
    {| _task := Some t; csms_server := csms_server s; records := records s;
       utcnow_isoformat := utcnow_isoformat s;
       constructed := constructed s |}).

(** [CSMSServer(charge_point_id, websocket)] *)
Definition new_CSMSServer (charge_point_id : string)
    (websocket : WebSocketServerProtocol) : M Server CSMSServer :=
  let c := {| id := charge_point_id; _connection := websocket |} in
  modify (fun s =>
    {| _task := _task s; csms_server := csms_server s; records := records s;
       utcnow_isoformat := utcnow_isoformat s;
       constructed := constructed s ++ [c] |});;
  mret c.

(** [headers[key]] *)
Definition getitem (headers : gmap string string) (key : string)
  : M Server string :=
  match headers !! key with
  | Some v => mret v
  | None => raise (KeyError key)
  end.

(** [assert b], with assertions enabled as they are by default. *)
Definition assert (b : bool) : M Server unit :=
  if b then mret tt else raise AssertionError.

(** *** [CSMSServer] *)

(** [on_boot_notification], with the step that its [try] is written for
    ("Reboot the Charging Station with the provided variables") as an
    argument. *)
Definition on_boot_notification_with (reboot : M Server unit)
    (self : CSMSServer) (kw : kwargs) : M Server BootNotificationResult :=
  '(interval, status) ←
    try_except
      (reboot;;
       mret (10, accepted))
      (fun e =>
         match e with
         | RuntimeError _ => Some (mret (60, rejected))
         | TimeoutError => Some (mret (120, pending))
         | _ => None
         end);
  now ← (s ← get; mret (utcnow_isoformat s));
  mret {| current_time := now; interval := interval; status := status |}.

(** In the source that step is a comment: the [try] holds the two
    assignments only. *)
Definition on_boot_notification
  : CSMSServer -> kwargs -> M Server BootNotificationResult :=
  on_boot_notification_with (mret tt).

Definition on_status_notification (self : CSMSServer) (kw : kwargs)
  : M Server StatusNotificationResult :=
  mret StatusNotificationPayload.

(** *** [Server] *)

(** What [worker] returns when it rejects: the status, no extra header,
    and the bytes of the reason. *)
Definition rejection : Type := HTTPStatus * list (string * string) * string.

Definition reject_handshake (http_status : HTTPStatus) (msg : string)
  : M Server rejection :=
  log ERROR (msg ++ " - Connection closed.");;
  mret (http_status, [], msg).

(** A block of [worker] either returns from the function ([inl]) or falls
    through to the next block ([inr]). *)

(** "Authenticating the connection" *)
Definition authenticate (websocket : WebSocketServerProtocol)
  : M Server (rejection + unit) :=
  try_except
    (auth_header ← getitem (request_headers websocket) "Authorization";
     assert (String.eqb auth_header
               (build_authorization_basic USERNAME PASSWORD));;
     mret (inr tt))
    (fun e =>
       match e with
       | KeyError _ =>
           Some (r ← reject_handshake UNAUTHORIZED "Access denied.";
                 mret (inl r))
       | AssertionError =>
           Some (r ← reject_handshake FORBIDDEN "Invalid Username/Password.";
                 mret (inl r))
       | _ => None
       end).

(** "Validating the protocol" *)
Definition validate_protocol (websocket : WebSocketServerProtocol)
  : M Server (rejection + unit) :=
  got ← try_except
          (requested_protocols ←
             getitem (request_headers websocket) "Sec-WebSocket-Protocol";
           mret (inr requested_protocols))
          (fun e =>
             match e with
             | KeyError _ =>
                 Some (r ← reject_handshake BAD_REQUEST "Subprotocol missing.";
                       mret (inl r))
             | _ => None
             end);
  match got with
  | inl r => mret (inl r)
  | inr requested_protocols =>
      if truthy (subprotocol websocket) then
        log INFO ("Protocols Matched: " ++ default "" (subprotocol websocket));;
        mret (inr tt)
      else
        let msg := "Protocols Mismatched, expected Subprotocols"
                   ++ " " ++ repr_list (available_subprotocols websocket)
                   ++ ", but received " ++ requested_protocols ++ "." in
        r ← reject_handshake BAD_REQUEST msg;
        mret (inl r)
  end.

Definition stop_server (exception : exn) : M Server unit :=
  s ← get;
  match _task s with
  | None => raise (AttributeError "'NoneType' object has no attribute 'cancel'")
  | Some t => set_task (fst (asyncio.cancel t))
  end;;
  s ← get;
  match csms_server s with
  | None => raise (AttributeError "'NoneType' object has no attribute 'id'")
  | Some c =>
      log WARNING ("Connection to charging point " ++ id c ++ " closed: "
                   ++ str_exn exception)
  end.

(** "Starting up the server", up to the [try]. *)
Definition open_session (websocket : WebSocketServerProtocol)
    (path : string) : M Server unit :=
  let charge_point_id := strip "/" path in
  c ← new_CSMSServer charge_point_id websocket;
  set_csms_server c.

(** The [try] around [await self.csms_server.start()].  [start c] is what
    happens while the worker is suspended there: the read loop of [c]
    runs, and so does every other coroutine of the process. *)
Definition serve_session (start : CSMSServer -> M Server unit)
  : M Server unit :=
  try_except
    (s ← get;
     match csms_server s with
     | None => raise (AttributeError "'NoneType' object has no attribute 'start'")
     | Some c => start c
     end)
    (fun e =>
       match e with
       | WebSocketException _ => Some (stop_server e)
       | _ => None
       end).

Definition start_up (start : CSMSServer -> M Server unit)
    (websocket : WebSocketServerProtocol) (path : string) : M Server unit :=
  open_session websocket path;;
  serve_session start.

Definition worker (start : CSMSServer -> M Server unit)
    (websocket : WebSocketServerProtocol) (path : string)
  : M Server (option rejection) :=
  a ← authenticate websocket;
  match a with
  | inl r => mret (Some r)
  | inr _ =>
      v ← validate_protocol websocket;
      match v with
      | inl r => mret (Some r)
      | inr _ => start_up start websocket path;; mret None
      end
  end.

(** [worker] up to the point where it is suspended in its [await]. *)
Definition worker_until_await (websocket : WebSocketServerProtocol)
    (path : string) : M Server (option rejection) :=
  a ← authenticate websocket;
  match a with
  | inl r => mret (Some r)
  | inr _ =>
      v ← validate_protocol websocket;
      match v with
      | inl r => mret (Some r)
      | inr _ => open_session websocket path;; mret None
      end
  end.

(** [start_server]: the task of [websockets.serve(self.worker, "0.0.0.0",
    settings.WEBSOCKET_PORT, subprotocols=settings.OCPP_SUBPROTOCOLS)]. *)
Definition start_server : M Server unit :=
  set_task {| asyncio._state := asyncio.PENDING; asyncio.thrown := 0 |}.

(** [Server()] *)
Definition init (now : string) : Server :=
  {| _task := None; csms_server := None; records := [];
     utcnow_isoformat := now; constructed := [] |}.

(** *** The transport, as [start_server] configures it *)

Section Transport.

(** Reading the list that a [Sec-WebSocket-Protocol] header carries, and
    choosing among the subprotocols of the client and of the server,
    belong to the transport library. *)
Variable parse_subprotocol : string -> list string.
Variable select_subprotocol : list string -> list string -> option string.

Definition process_subprotocol (headers : gmap string string)
    (available : list string) : option string :=
  match headers !! "Sec-WebSocket-Protocol" with
  | Some v => select_subprotocol (parse_subprotocol v) available
  | None => None
  end.

(** The connection object of a request whose headers are [headers]. *)
Definition connection (headers : gmap string string)
  : WebSocketServerProtocol :=
  {| request_headers := headers;
     subprotocol := process_subprotocol headers settings.OCPP_SUBPROTOCOLS;
     available_subprotocols := settings.OCPP_SUBPROTOCOLS |}.

End Transport.


(** The state and the result of a worker that rejects with [msg]. *)
Definition refused (http_status : HTTPStatus) (msg : string) (s : Server)
  : Server * outcome (option rejection) :=
  (fst (log ERROR (msg ++ " - Connection closed.") s),
   Normal (Some (http_status, [], msg))).


End server.

(** ** One transport *)

(** A reading of the header as a comma-separated list, spaces dropped, and
    the choice of the first subprotocol of the server that the client
    offers. *)
Module websockets.

Fixpoint split_header (current : string) (s : string) : list string :=
  match s with
  | EmptyString => [current]
  | String a s' =>
      if Ascii.eqb a ","%char then current :: split_header "" s'
      else if Ascii.eqb a " "%char then split_header current s'
      else split_header (current ++ String a EmptyString) s'
  end.

Definition parse_subprotocol (header : string) : list string :=
  List.filter (fun t => negb (String.eqb t "")) (split_header "" header).

Definition select_subprotocol (client_subprotocols server_subprotocols : list string)
  : option string :=
  List.find (fun p => bool_decide (p ∈ client_subprotocols)) server_subprotocols.

End websockets.

(** ** [client.py] *)

Module client.

Import Py ocpp.

(** What [websockets.connect] was asked for. *)
Record Connection : Type := { uri : string; subprotocols : list string }.

Record CSMSClient : Type := { id : string; _connection : Connection }.

(** [call.BootNotificationPayload] and [call.StatusNotificationPayload] *)
Inductive request : Type :=
| BootNotificationPayload (charging_station : list (string * string))
    (reason : string)
| StatusNotificationPayload (timestamp connector_status : string)
    (evse_id connector_id : Z).

(** The [Client] object, with what its methods read and write around it:
    the tasks of the event loop (a task handle is a position in [tasks]),
    the records logged so far (oldest first), the requests handed to
    [call], the clock, and the number of times [finish_up] was entered. *)
Record Client : Type :=
  { cp_id : string;
    _tasks : list nat;
    csms_client : option CSMSClient;
    tasks : list asyncio.Task;
    records : list LogRecord;
    sent : list request;
    utcnow_isoformat : string;
    finish_up_calls : nat }.

Definition with_tasks (f : list asyncio.Task -> list asyncio.Task)
    (c : Client) : Client :=
  {| cp_id := cp_id c; _tasks := _tasks c; csms_client := csms_client c;
     tasks := f (tasks c); records := records c; sent := sent c;
     utcnow_isoformat := utcnow_isoformat c;
     finish_up_calls := finish_up_calls c |}.

Definition with__tasks (f : list nat -> list nat) (c : Client) : Client :=
  {| cp_id := cp_id c; _tasks := f (_tasks c); csms_client := csms_client c;
     tasks := tasks c; records := records c; sent := sent c;
     utcnow_isoformat := utcnow_isoformat c;
     finish_up_calls := finish_up_calls c |}.

Definition with_csms_client (x : CSMSClient) (c : Client) : Client :=
  {| cp_id := cp_id c; _tasks := _tasks c; csms_client := Some x;
     tasks := tasks c; records := records c; sent := sent c;
     utcnow_isoformat := utcnow_isoformat c;
     finish_up_calls := finish_up_calls c |}.

Definition with_record (r : LogRecord) (c : Client) : Client :=
  {| cp_id := cp_id c; _tasks := _tasks c; csms_client := csms_client c;
     tasks := tasks c; records := records c ++ [r]; sent := sent c;
     utcnow_isoformat := utcnow_isoformat c;
     finish_up_calls := finish_up_calls c |}.

Definition with_sent (r : request) (c : Client) : Client :=
  {| cp_id := cp_id c; _tasks := _tasks c; csms_client := csms_client c;
     tasks := tasks c; records := records c; sent := sent c ++ [r];
     utcnow_isoformat := utcnow_isoformat c;
     finish_up_calls := finish_up_calls c |}.

Definition entered_finish_up (c : Client) : Client :=
  {| cp_id := cp_id c; _tasks := _tasks c; csms_client := csms_client c;
     tasks := tasks c; records := records c; sent := sent c;
     utcnow_isoformat := utcnow_isoformat c;
     finish_up_calls := S (finish_up_calls c) |}.

Definition log (l : levelname) (msg : string) : M Client unit :=
  modify (with_record {| level := l; message := msg |}).

(** [Client(cp_id)], in a loop whose tasks are [loop_tasks]. *)
Definition init (cp : string) (loop_tasks : list asyncio.Task) (now : string)
  : Client :=
  {| cp_id := cp; _tasks := []; csms_client := None; tasks := loop_tasks;
     records := []; sent := []; utcnow_isoformat := now;
     finish_up_calls := 0 |}.

(** *** The environment of one run *)

(** What the transport, the peer and the event loop do at the places where
    [run] is suspended.  The awaits of [run] are numbered in program
    order: 0 the entry of the connection, 1 the boot notification, 2 the
    status notification, 3 the exit of the connection. *)
Record Environment : Type :=
  { connect : Connection -> outcome unit;
    call_boot : request -> outcome (option BootNotificationResult);
    call_status : request -> outcome (option StatusNotificationResult);
    close : outcome unit;
    meanwhile : nat -> list (nat * asyncio.result) }.

Definition lift {A} (o : outcome A) : M Client A := fun c => (c, o).

(** The tasks that reach their end while [run] is suspended at await [n]. *)
Definition suspend (env : Environment) (n : nat) : M Client unit :=
  modify (with_tasks (fun ts =>
    fold_left (fun ts' hr => alter (asyncio.finish (snd hr)) (fst hr) ts')
      (meanwhile env n) ts)).

(** [asyncio.ensure_future(coro)]: a new pending task. *)
Definition ensure_future : M Client nat :=
  c ← get;
  modify (with_tasks (fun ts =>
    (ts ++ [{| asyncio._state := asyncio.PENDING; asyncio.thrown := 0 |}])%list));;
  mret (length (tasks c)).

Definition result_of {A} (o : outcome A) : asyncio.result :=
  match o with
  | Normal _ => asyncio.returned
  | Raised CancelledError => asyncio.cancelled
  | Raised _ => asyncio.failed
  end.

(** [await task], for the task [h] that runs [coro]: the caller resumes
    once the task is done, with its result or its exception. *)
Definition await_task {A} (env : Environment) (n : nat) (h : nat)
    (coro : M Client A) : M Client A :=
  fun c =>
    match coro c with
    | (c1, o) =>
        match suspend env n c1 with
        | (c2, _) =>
            (with_tasks (alter (asyncio.finish (result_of o)) h) c2, o)
        end
    end.

(** *** [CSMSClient] *)

Definition send_boot_notification (env : Environment)
  : M Client (option BootNotificationResult) :=
  let boot_notification_request :=
    BootNotificationPayload
      [("model", "22KW EC Charge"); ("vendor_name", "EnBW")] "PowerUp" in
  modify (with_sent boot_notification_request);;
  boot_notification_response ← lift (call_boot env boot_notification_request);
  mret boot_notification_response.

Definition send_status_notification (env : Environment)
  : M Client (option StatusNotificationResult) :=
  c ← get;
  let status_notification_request :=
    StatusNotificationPayload (utcnow_isoformat c) "Available" 3 1001 in
  modify (with_sent status_notification_request);;
  lift (call_status env status_notification_request).

(** *** [Client] *)

Definition _create_connection (uname pwd : string) : M Client Connection :=
  c ← get;
  mret {| uri := "ws://" ++ uname ++ ":" ++ pwd ++ "@"
                 ++ settings.WEBSOCKET_IP ++ ":" ++ settings.WEBSOCKET_PORT
                 ++ "/" ++ cp_id c;
          subprotocols := settings.OCPP_SUBPROTOCOLS |}.

Definition make_handshake : M Client unit :=
  c ← get;
  match csms_client c with
  | None => raise (AttributeError "'NoneType' object has no attribute 'start'")
  | Some _ =>
      t ← ensure_future;
      modify (with__tasks (fun l => (l ++ [t])%list))
  end.

Definition handle_boot_notification_response
    (response : option BootNotificationResult) : M Client unit :=
  match response with
  | None =>
      raise (RuntimeError "No response received with boot notification request.")
  | Some r =>
      match status r with
      | accepted => log INFO "Boot notification acknowledged!"
      | pending => log INFO "Boot notification pending!"
      | rejected => log WARNING "Boot notification rejected!"
      end
  end.

Definition finish_up : M Client unit :=
  modify entered_finish_up;;
  c ← get;
  modify (with_tasks (fun ts =>
    fold_left (fun ts' task => alter (fun t => fst (asyncio.cancel t)) task ts')
      (_tasks c) ts)).

(** The next cycle of the event loop, for the cancellations requested. *)
Definition next_cycle (c : Client) : Client :=
  with_tasks (map asyncio.throw_cancelled) c.

Definition exchange_message {A} (env : Environment) (n : nat)
    (func : M Client A) : M Client A :=
  func_task ← ensure_future;
  modify (with__tasks (fun l => (l ++ [func_task])%list));;
  await_task env n func_task func.

Definition run (env : Environment) (username password : string)
  : M Client unit :=
  try_finally
    (try_except
       (async_with
          (con ← _create_connection username password;
           suspend env 0;;
           lift (connect env con);;
           mret con)
          (suspend env 3;; lift (close env))
          (fun con =>
             c ← get;
             modify (with_csms_client {| id := cp_id c; _connection := con |});;
             make_handshake;;
             boot_notification_response ←
               exchange_message env 1 (send_boot_notification env);
             handle_boot_notification_response boot_notification_response;;
             exchange_message env 2 (send_status_notification env);;
             mret tt))
       (fun e =>
          match e with
          | WebSocketException _ =>
              Some (log ERROR ("Connection refused from Server. Make sure you entered"
                               ++ " the correct credentials."))
          | RuntimeError _ =>
              Some (log ERROR "Unknown error happened on server.")
          | _ => None
          end))
    finish_up.

(** The record that a boot-notification response with status [st] leaves
    in the log. *)
Definition boot_log (st : RegistrationStatusType) : LogRecord :=
  match st with
  | accepted => {| level := INFO; message := "Boot notification acknowledged!" |}
  | pending => {| level := INFO; message := "Boot notification pending!" |}
  | rejected => {| level := WARNING; message := "Boot notification rejected!" |}
  end.

(** [finish_up] was entered [calls0] times, and every task created from
    handle [first_handle] on is registered in [_tasks]. *)
Definition registered (calls0 first_handle : nat) (c : Client) : Prop :=
  finish_up_calls c = calls0
  /\ (first_handle <= length (tasks c))%nat
  /\ forall h, (first_handle <= h < length (tasks c))%nat -> h ∈ _tasks c.

(** A state that differs from [c] in its tasks only, up to the requests
    [reqs] sent since. *)
Definition quiet (c : Client) (reqs : list request) (c' : Client) : Prop :=
  records c' = records c
  /\ finish_up_calls c' = finish_up_calls c
  /\ sent c' = (sent c ++ reqs)%list
  /\ cp_id c' = cp_id c.

End client.

(** ** Invariants *)

(** [m] keeps the invariant [I] of the object, however it ends. *)
Definition preserves {S A : Type} (I : S -> Prop) (m : Py.M S A) : Prop :=
  forall s, I s -> I (fst (m s)).

(** ** Requests, servers and peers to run the programs on *)

Module example.

Import Py ocpp.

Definition valid_headers : gmap string string :=
  {[ "Authorization" := build_authorization_basic server.USERNAME server.PASSWORD;
     "Sec-WebSocket-Protocol" := "ocpp1.6, ocpp2.0.1" ]}.

Definition station : server.WebSocketServerProtocol :=
  server.connection websockets.parse_subprotocol websockets.select_subprotocol
    valid_headers.



Definition bare : server.WebSocketServerProtocol :=
  server.connection websockets.parse_subprotocol websockets.select_subprotocol
    {[ "Authorization" := build_authorization_basic server.USERNAME server.PASSWORD ]}.

Definition listening : server.Server :=
  fst (server.start_server (server.init "2024-01-01T00:00:00")).

Definition never_closes : server.CSMSServer -> M server.Server unit :=
  fun _ => mret tt.

Definition silent_peer : client.Environment :=
  {| client.connect := fun _ => Normal tt;
     client.call_boot := fun _ => Normal None;
     client.call_status := fun _ => Normal (Some StatusNotificationPayload);
     client.close := Normal tt;
     client.meanwhile := fun _ => [] |}.

Definition accepting_peer : client.Environment :=
  {| client.connect := fun _ => Normal tt;
     client.call_boot := fun _ =>
       Normal (Some {| current_time := "2024-01-01T00:00:00";
                       interval := 10; status := accepted |});
     client.call_status := fun _ => Normal (Some StatusNotificationPayload);
     client.close := Normal tt;
     client.meanwhile := fun _ => [] |}.

Definition charge_point : client.Client :=
  client.init "CP_01" [] "2024-01-01T00:00:00".

Definition connected : client.Client :=
  {| client.cp_id := "CP_01"; client._tasks := [0%nat];
     client.csms_client := None;
     client.tasks :=
       [{| asyncio._state := asyncio.PENDING; asyncio.thrown := 0 |}];
     client.records := []; client.sent := [];
     client.utcnow_isoformat := "2024-01-01T00:00:00";
     client.finish_up_calls := 0 |}.

End example.

(** ** Shapes of paths, of exceptions and of task lists *)

Module shape.

Import Py.

Definition starts_with (c : ascii) (s : string) : bool :=
  match s with
  | EmptyString => false
  | String a _ => Ascii.eqb a c
  end.

Fixpoint ends_with (c : ascii) (s : string) : bool :=
  match s with
  | EmptyString => false
  | String a EmptyString => Ascii.eqb a c
  | String _ s' => ends_with c s'
  end.

(** The exceptions that no [except] clause of [Client.run] catches. *)
Definition leaves_run (e : exn) : bool :=
  match e with
  | WebSocketException _ | RuntimeError _ => false
  | _ => true
  end.

(** What the [except] clauses of [Client.run] log for an exception. *)
Definition handled_log (e : exn) : list LogRecord :=
  match e with
  | WebSocketException _ =>
      [{| level := ERROR;
          message := "Connection refused from Server. Make sure you entered"
                     ++ " the correct credentials." |}]
  | RuntimeError _ =>
      [{| level := ERROR; message := "Unknown error happened on server." |}]
  | _ => []
  end.

(** The handles in [_tasks] are distinct and each one names a task of the
    loop. *)
Definition handles_ok (c : client.Client) : Prop :=
  NoDup (client._tasks c)
  /\ forall h, h ∈ client._tasks c -> (h < length (client.tasks c))%nat.

(** The two requests of [CSMSClient]. *)
Definition boot_request : client.request :=
  client.BootNotificationPayload
    [("model", "22KW EC Charge"); ("vendor_name", "EnBW")] "PowerUp".

Definition status_request (now : string) : client.request :=
  client.StatusNotificationPayload now "Available" 3 1001.

(** [c'] is [c] after the records [recs] were logged, the requests [reqs]
    handed to [call] and the tasks [hs] created and registered, in that
    order; the tasks that existed may have moved on. *)
Definition advanced (c : client.Client) (recs : list LogRecord)
    (reqs : list client.request) (hs : list nat) (c' : client.Client) : Prop :=
  client.records c' = (client.records c ++ recs)%list
  /\ client.sent c' = (client.sent c ++ reqs)%list
  /\ client._tasks c' = (client._tasks c ++ hs)%list
  /\ length (client.tasks c') = (length (client.tasks c) + length hs)%nat
  /\ client.finish_up_calls c' = client.finish_up_calls c
  /\ client.utcnow_isoformat c' = client.utcnow_isoformat c
  /\ client.cp_id c' = client.cp_id c.

End shape.

(** * Facts *)

(** ** The base-64 encoding loses nothing *)

Section Base64Facts.

Import Base64.
Local Open Scope N_scope.

Lemma sextets_ok : forallb sextet_ok (seq 0 64) = true.
Proof. vm_compute. reflexivity. Qed.

Lemma sextet_ok_lt (n : N) : n < 64 -> sextet_ok (N.to_nat n) = true.
Proof.
  intros Hn. pose proof sextets_ok as H.
  rewrite forallb_forall in H. apply H, in_seq. lia.
Qed.

Lemma b64index_char (n : N) : n < 64 -> b64index (b64char n) = n.
Proof.
  intros Hn. pose proof (sextet_ok_lt n Hn) as H. unfold sextet_ok in H.
  rewrite N2Nat.id in H. apply andb_true_iff in H as [H _].
  now apply N.eqb_eq in H.
Qed.

Lemma b64char_not_pad (n : N) : n < 64 -> Ascii.eqb (b64char n) pad = false.
Proof.
  intros Hn. pose proof (sextet_ok_lt n Hn) as H. unfold sextet_ok in H.
  rewrite N2Nat.id in H. apply andb_true_iff in H as [_ H].
  now apply negb_true_iff in H.
Qed.

Ltac euclid := zify; Z.to_euclidean_division_equations; lia.

Lemma byte_lt (a : ascii) : N_of_ascii a < 256.
Proof. apply N_ascii_bounded. Qed.

Lemma b64decode_encode (n : nat) :
  forall s, (String.length s <= n)%nat -> b64decode (b64encode s) = s.
Proof.
  induction n as [n IH] using lt_wf_ind.
  intros [|a [|b [|c rest]]] Hlen; [reflexivity | | |].
  - pose proof (byte_lt a) as Ha. cbn [b64encode b64decode].
    rewrite Ascii.eqb_refl.
    rewrite !b64index_char by euclid.
    f_equal. rewrite <- (ascii_N_embedding a) at 3. f_equal. euclid.
  - pose proof (byte_lt a) as Ha. pose proof (byte_lt b) as Hb.
    cbn [b64encode b64decode].
    rewrite (b64char_not_pad ((N_of_ascii a * 256 + N_of_ascii b) mod 16 * 4))
      by euclid.
    rewrite Ascii.eqb_refl.
    rewrite !b64index_char by euclid.
    rewrite <- (ascii_N_embedding a) at 7.
    rewrite <- (ascii_N_embedding b) at 7.
    repeat f_equal; euclid.
  - pose proof (byte_lt a) as Ha. pose proof (byte_lt b) as Hb.
    pose proof (byte_lt c) as Hc.
    cbn [b64encode b64decode].
    set (x := N_of_ascii a * 65536 + N_of_ascii b * 256 + N_of_ascii c).
    assert (Hx : x = N_of_ascii a * 65536 + N_of_ascii b * 256 + N_of_ascii c)
      by reflexivity.
    rewrite (b64char_not_pad ((x / 64) mod 64)) by euclid.
    rewrite (b64char_not_pad (x mod 64)) by euclid.
    rewrite !b64index_char by euclid.
    rewrite (IH (String.length rest)) by (cbn in Hlen; lia).
    assert (E : x / 262144 * 262144 + x / 4096 mod 64 * 4096
                + x / 64 mod 64 * 64 + x mod 64 = x) by euclid.
    rewrite E.
    assert (Ea : x / 65536 = N_of_ascii a) by euclid.
    assert (Eb : (x / 256) mod 256 = N_of_ascii b) by euclid.
    assert (Ec : x mod 256 = N_of_ascii c) by euclid.
    rewrite Ea, Eb, Ec, !ascii_N_embedding. reflexivity.
Qed.

Lemma b64encode_inj (s t : string) : b64encode s = b64encode t -> s = t.
Proof.
  intros H.
  rewrite <- (b64decode_encode _ s (le_n _)), <- (b64decode_encode _ t (le_n _)).
  now rewrite H.
Qed.

End Base64Facts.

(** ** Computations, one step at a time *)

Section MonadFacts.

Import Py.
Context {S : Type} (I : S -> Prop).

Lemma preserves_ret {A} (a : A) : preserves I (mret a : M S A).
Proof. intros s H. exact H. Qed.

Lemma preserves_raise {A} (e : exn) : preserves I (@raise S A e).
Proof. intros s H. exact H. Qed.

Lemma preserves_get : preserves I (@get S).
Proof. intros s H. exact H. Qed.

Lemma preserves_modify (f : S -> S) :
  (forall s, I s -> I (f s)) -> preserves I (modify f).
Proof. intros Hf s H. now apply Hf. Qed.

Lemma preserves_bind {A B} (m : M S A) (k : A -> M S B) :
  preserves I m -> (forall a, preserves I (k a)) -> preserves I (m ≫= k).
Proof.
  intros Hm Hk s H. specialize (Hm s H).
  unfold mbind, M_bind, bind.
  destruct (m s) as [s1 [a|e]]; [now apply Hk | exact Hm].
Qed.

Lemma preserves_try_except {A} (body : M S A)
    (handlers : exn -> option (M S A)) :
  preserves I body ->
  (forall e h, handlers e = Some h -> preserves I h) ->
  preserves I (try_except body handlers).
Proof.
  intros Hb Hh s H. specialize (Hb s H). unfold try_except.
  destruct (body s) as [s1 [a|e]]; [exact Hb|].
  destruct (handlers e) as [h|] eqn:E; [now apply (Hh e h E) | exact Hb].
Qed.

Lemma preserves_try_finally {A} (body : M S A) (fin : M S unit) :
  preserves I body -> preserves I fin -> preserves I (try_finally body fin).
Proof.
  intros Hb Hf s H. specialize (Hb s H). unfold try_finally.
  destruct (body s) as [s1 r]. specialize (Hf s1 Hb).
  destruct (fin s1) as [s2 [u|e]]; exact Hf.
Qed.

Lemma preserves_async_with {A B} (aenter : M S A) (aexit : M S unit)
    (body : A -> M S B) :
  preserves I aenter -> preserves I aexit ->
  (forall x, preserves I (body x)) ->
  preserves I (async_with aenter aexit body).
Proof.
  intros Ha He Hb. unfold async_with.
  apply (preserves_bind aenter); [exact Ha|].
  intros x. apply preserves_try_finally; [apply Hb | exact He].
Qed.

Lemma bind_normal {A B} (m : M S A) (k : A -> M S B) s s1 a :
  m s = (s1, Normal a) -> (m ≫= k) s = k a s1.
Proof. intros H. unfold mbind, M_bind, bind. now rewrite H. Qed.

Lemma try_finally_eq {A} (body : M S A) (fin : M S unit) s s1 r s2 :
  body s = (s1, r) -> fin s1 = (s2, Normal tt) ->
  try_finally body fin s = (s2, r).
Proof. intros Hb Hf. unfold try_finally. now rewrite Hb, Hf. Qed.

Lemma try_except_handled {A} (body : M S A) handlers s s1 e (h : M S A) :
  body s = (s1, Raised e) -> handlers e = Some h ->
  try_except body handlers s = h s1.
Proof. intros Hb Hh. unfold try_except. now rewrite Hb, Hh. Qed.

Lemma async_with_entered {A B} (aenter : M S A) (aexit : M S unit)
    (body : A -> M S B) s s1 x :
  aenter s = (s1, Normal x) ->
  async_with aenter aexit body s = try_finally (body x) aexit s1.
Proof. intros H. unfold async_with, bind. now rewrite H. Qed.

End MonadFacts.

(** ** The server *)

Section ServerFacts.

Import Py ocpp server example.







(** The configured pair is the only one whose header is the expected one. *)
Lemma configured_pair_unique (u p : string) :
  u ++ ":" ++ p = USERNAME ++ ":" ++ PASSWORD -> (u, p) = (USERNAME, PASSWORD).
Proof.
  unfold USERNAME, PASSWORD.
  destruct u as [|a0 [|a1 [|a2 [|a3 [|a4 [|a5 [|a6 [|a7 [|a8 u]]]]]]]]];
    cbv [String.append]; intros H; inversion H; subst; reflexivity.
Qed.

Lemma build_authorization_basic_configured (u p : string) :
  build_authorization_basic u p = build_authorization_basic USERNAME PASSWORD ->
  (u, p) = (USERNAME, PASSWORD).
Proof.
  unfold build_authorization_basic. intros H.
  apply configured_pair_unique, b64encode_inj.
  exact (String.app_inj "Basic " _ _ H).
Qed.

Section Negotiation.

(** What [start_server] leaves to the transport: reading the list of a
    header, and choosing one subprotocol.  The choice is among the
    subprotocols that both sides name, and there is one whenever the two
    lists meet. *)
Variable parse_subprotocol : string -> list string.
Variable select_subprotocol : list string -> list string -> option string.

Hypothesis select_common : forall client server : list string,
  match select_subprotocol client server with
  | Some p => p ∈ client /\ p ∈ server
  | None => forall p, p ∈ client -> p ∉ server
  end.


End Negotiation.






(** C7.  The handler of the source, whose [try] holds two assignments,
    answers Accepted with interval 10 for every request and leaves the
    state as it was.  The body of the [try] ends normally in every state, so
    no [except] clause is ever consulted, whatever the clauses are. *)
Theorem boot_notification_always_accepted (self : CSMSServer) (kw : kwargs)
    (s : Server) :
  on_boot_notification self kw s =
    (s, Normal {| current_time := utcnow_isoformat s;
                  interval := 10; status := accepted |})
  /\ forall handlers : exn -> option (M Server (Z * RegistrationStatusType)),
       try_except (mret tt;; mret (10, accepted)) handlers s
       = (s, Normal (10, accepted)).
Proof. split; reflexivity. Qed.

(** C10.  The status-notification handler answers every request with the
    empty acknowledgement, raises nothing, leaves the state as it was, and
    its answer is the same for every payload. *)
Theorem status_notification_acknowledged (self : CSMSServer) (kw : kwargs)
    (s : Server) :
  on_status_notification self kw s = (s, Normal StatusNotificationPayload)
  /\ forall (self' : CSMSServer) (kw' : kwargs),
       snd (on_status_notification self' kw' s)
       = snd (on_status_notification self kw s).
Proof. split; reflexivity. Qed.




End ServerFacts.

(** ** The client *)

Section ClientFacts.

Import Py ocpp client example.

Lemma length_fold_finish (xs : list (nat * asyncio.result)) (l : list asyncio.Task) :
  length (fold_left
            (fun l' hr => alter (asyncio.finish (snd hr)) (fst hr) l') xs l)
  = length l.
Proof.
  revert l. induction xs as [|x xs IH]; intros l; [reflexivity|].
  cbn [fold_left]. rewrite IH. apply length_alter.
Qed.

Lemma lookup_fold_alter {A} (g : A -> A) (hs : list nat) (l : list A) (i : nat) :
  (forall a, g (g a) = g a) ->
  fold_left (fun l' h => alter g h l') hs l !! i
  = if decide (i ∈ hs) then g <$> l !! i else l !! i.
Proof.
  intros Hg. revert l. induction hs as [|h hs IH]; intros l.
  - cbn [fold_left]. rewrite decide_False by apply not_elem_of_nil. reflexivity.
  - cbn [fold_left]. rewrite IH, list_lookup_alter.
    destruct (decide (h = i)) as [->|Hne].
    + rewrite (decide_True (P := i ∈ i :: hs)) by left.
      destruct (decide (i ∈ hs)); [|reflexivity].
      destruct (l !! i); cbn; [now rewrite Hg | reflexivity].
    + destruct (decide (i ∈ hs)) as [Hin|Hnin].
      * rewrite decide_True by (now right). reflexivity.
      * rewrite decide_False; [reflexivity|].
        intros Hin. apply elem_of_cons in Hin as [?|?]; [congruence|contradiction].
Qed.

Lemma cancel_idempotent (t : asyncio.Task) :
  fst (asyncio.cancel (fst (asyncio.cancel t))) = fst (asyncio.cancel t).
Proof. destruct t as [[| |r] n]; reflexivity. Qed.

Lemma cancel_not_pending (t : asyncio.Task) :
  asyncio._state (fst (asyncio.cancel t)) <> asyncio.PENDING.
Proof. destruct t as [[| |r] n]; discriminate. Qed.

(** The state that [finish_up] reaches. *)
Lemma finish_up_eq (c : Client) :
  finish_up c =
    (with_tasks
       (fun ts => fold_left
          (fun ts' task => alter (fun t => fst (asyncio.cancel t)) task ts')
          (_tasks c) ts)
       (entered_finish_up c),
     Normal tt).
Proof. reflexivity. Qed.

Lemma finish_up_lookup (c : Client) (h : nat) :
  tasks (fst (finish_up c)) !! h
  = if decide (h ∈ _tasks c)
    then (fun t => fst (asyncio.cancel t)) <$> tasks c !! h
    else tasks c !! h.
Proof.
  rewrite finish_up_eq. cbn [fst with_tasks entered_finish_up tasks _tasks].
  apply lookup_fold_alter, cancel_idempotent.
Qed.

Lemma finish_up_twice (c : Client) :
  fst (finish_up (fst (finish_up c))) = entered_finish_up (fst (finish_up c)).
Proof.
  assert (E : tasks (fst (finish_up (fst (finish_up c))))
              = tasks (fst (finish_up c))).
  { apply list_eq. intros i. rewrite (finish_up_lookup (fst (finish_up c)) i).
    change (_tasks (fst (finish_up c))) with (_tasks c).
    rewrite (finish_up_lookup c i).
    destruct (decide (i ∈ _tasks c)); [|reflexivity].
    destruct (tasks c !! i) as [t|]; [|reflexivity].
    cbn. now rewrite cancel_idempotent. }
  rewrite (finish_up_eq (fst (finish_up c))) in *. cbn [fst] in *.
  unfold with_tasks in *. cbn [tasks] in E. rewrite E. reflexivity.
Qed.

(** *** What the body of [run] keeps *)

Section RunInvariant.

Variable calls0 : nat.
Variable first_handle : nat.

Lemma registered_with_tasks f c :
  (forall ts, length (f ts) = length ts) ->
  registered calls0 first_handle c ->
  registered calls0 first_handle (with_tasks f c).
Proof.
  intros Hf (H1 & H2 & H3). unfold registered.
  cbn [with_tasks finish_up_calls tasks _tasks]. rewrite Hf. auto.
Qed.

Lemma registered_suspend env n :
  preserves (registered calls0 first_handle) (suspend env n).
Proof.
  apply preserves_modify. intros c. apply registered_with_tasks.
  intros ts. apply length_fold_finish.
Qed.

Lemma registered_lift {A} (o : outcome A) :
  preserves (registered calls0 first_handle) (lift o).
Proof. intros c H. exact H. Qed.

Lemma registered_log l msg :
  preserves (registered calls0 first_handle) (log l msg).
Proof. apply preserves_modify. intros c H. exact H. Qed.

Lemma registered_spawn (c : Client) :
  registered calls0 first_handle c ->
  registered calls0 first_handle
    (with__tasks (fun l => (l ++ [length (tasks c)])%list)
       (with_tasks
          (fun ts => (ts ++ [{| asyncio._state := asyncio.PENDING;
                                asyncio.thrown := 0 |}])%list) c)).
Proof.
  intros (H1 & H2 & H3). unfold registered.
  cbn [with_tasks with__tasks finish_up_calls tasks _tasks].
  rewrite length_app. cbn [length].
  split; [exact H1|]. split; [lia|].
  intros h Hh. apply elem_of_app.
  destruct (decide (h = length (tasks c))) as [->|Hne].
  - right. apply list_elem_of_singleton. reflexivity.
  - left. apply H3. lia.
Qed.

Lemma registered_make_handshake :
  preserves (registered calls0 first_handle) make_handshake.
Proof.
  intros c H. unfold make_handshake, ensure_future.
  unfold mbind, mret, M_bind, M_ret, bind, ret, raise, get, modify.
  destruct (csms_client c); [|exact H].
  now apply registered_spawn.
Qed.

Lemma registered_exchange_message {A} env n (func : M Client A) :
  preserves (registered calls0 first_handle) func ->
  preserves (registered calls0 first_handle) (exchange_message env n func).
Proof.
  intros Hf c H. unfold exchange_message, ensure_future, await_task.
  unfold mbind, mret, M_bind, M_ret, bind, ret, raise, get, modify.
  cbn beta iota.
  apply registered_spawn in H. apply Hf in H.
  match goal with |- context [func ?x] => destruct (func x) as [c1 o] end.
  cbn [fst] in *.
  apply (registered_suspend env n) in H.
  destruct (suspend env n c1) as [c2 u]. cbn [fst] in *.
  apply registered_with_tasks; [|exact H].
  intros ts. apply length_alter.
Qed.

Lemma registered_send_boot env :
  preserves (registered calls0 first_handle) (send_boot_notification env).
Proof.
  unfold send_boot_notification.
  apply preserves_bind; [apply preserves_modify; intros c H; exact H|].
  intros _. apply preserves_bind; [apply registered_lift|].
  intros r. apply preserves_ret.
Qed.

Lemma registered_send_status env :
  preserves (registered calls0 first_handle) (send_status_notification env).
Proof.
  unfold send_status_notification.
  apply preserves_bind; [apply preserves_get|].
  intros c0. apply preserves_bind; [apply preserves_modify; intros c H; exact H|].
  intros _. apply registered_lift.
Qed.

Lemma registered_handle response :
  preserves (registered calls0 first_handle)
    (handle_boot_notification_response response).
Proof.
  destruct response as [r|]; [|apply preserves_raise].
  cbn. destruct (status r); apply registered_log.
Qed.

Lemma registered_run_body env username password :
  preserves (registered calls0 first_handle)
    (try_except
       (async_with
          (con ← _create_connection username password;
           suspend env 0;;
           lift (connect env con);;
           mret con)
          (suspend env 3;; lift (close env))
          (fun con =>
             c ← get;
             modify (with_csms_client {| id := cp_id c; _connection := con |});;
             make_handshake;;
             boot_notification_response ←
               exchange_message env 1 (send_boot_notification env);
             handle_boot_notification_response boot_notification_response;;
             exchange_message env 2 (send_status_notification env);;
             mret tt))
       (fun e =>
          match e with
          | WebSocketException _ =>
              Some (log ERROR ("Connection refused from Server. Make sure you entered"
                               ++ " the correct credentials."))
          | RuntimeError _ =>
              Some (log ERROR "Unknown error happened on server.")
          | _ => None
          end)).
Proof.
  apply preserves_try_except.
  - apply preserves_async_with.
    + apply preserves_bind.
      { unfold _create_connection. apply preserves_bind; [apply preserves_get|].
        intros c. apply preserves_ret. }
      intros con. apply preserves_bind; [apply registered_suspend|].
      intros _. apply preserves_bind; [apply registered_lift|].
      intros _. apply preserves_ret.
    + apply preserves_bind; [apply registered_suspend|].
      intros _. apply registered_lift.
    + intros con. apply preserves_bind; [apply preserves_get|].
      intros c. apply preserves_bind; [apply preserves_modify; intros c' H; exact H|].
      intros _. apply preserves_bind; [apply registered_make_handshake|].
      intros _. apply preserves_bind.
      { apply registered_exchange_message, registered_send_boot. }
      intros r. apply preserves_bind; [apply registered_handle|].
      intros _. apply preserves_bind.
      { apply registered_exchange_message, registered_send_status. }
      intros _. apply preserves_ret.
  - intros e h He. destruct e; inversion He; subst; apply registered_log.
Qed.

End RunInvariant.

(** C4.  Every run of [run] ends with [finish_up], entered once: the
    final state is the one [finish_up] leaves, and it had not been entered
    before.  This holds on every path, whatever the transport, the peer and
    the other tasks do.  After the run no task registered in [_tasks], and no
    task created during the run, is left pending: each is done or has its
    cancellation requested, and is done once the loop has thrown the
    cancellation.  A [WebSocketException] or a [RuntimeError] never leaves
    [run]; any other exception does, after the teardown. *)
Theorem run_tears_down_exactly_once (env : Environment)
    (username password : string) (c : Client) :
  let final := fst (run env username password c) in
  (exists c1,
      final = fst (finish_up c1)
      /\ finish_up_calls c1 = finish_up_calls c)
  /\ finish_up_calls final = S (finish_up_calls c)
  /\ (forall h t,
        tasks final !! h = Some t ->
        h ∈ _tasks final \/ (length (tasks c) <= h)%nat ->
        asyncio._state t <> asyncio.PENDING
        /\ asyncio.done (asyncio.throw_cancelled t) = true)
  /\ match snd (run env username password c) with
     | Normal _ => True
     | Raised (WebSocketException _) | Raised (RuntimeError _) => False
     | Raised _ => True
     end.
Proof.
  pose proof (registered_run_body (finish_up_calls c) (length (tasks c))
                env username password c) as Hreg.
  unfold run, try_finally.
  match goal with |- context [try_except ?b ?hs c] =>
    set (body := b) in *; set (handlers := hs) in * end.
  assert (Hres : match snd (try_except body handlers c) with
                 | Normal _ => True
                 | Raised (WebSocketException _) | Raised (RuntimeError _) => False
                 | Raised _ => True
                 end).
  { unfold try_except. destruct (body c) as [c' [a|e]]; [exact I|].
    destruct e; cbn; exact I. }
  destruct (try_except body handlers c) as [c1 r].
  cbn [fst snd] in *.
  assert (H0 : registered (finish_up_calls c) (length (tasks c)) c).
  { repeat split; [lia|]. intros h Hh. lia. }
  specialize (Hreg H0). destruct Hreg as (Hcalls & Hlen & Hall).
  rewrite finish_up_eq. cbn [fst snd].
  split; [|split; [|split]].
  - exists c1. rewrite finish_up_eq. auto.
  - cbn. now rewrite Hcalls.
  - intros h t Hlook Hh.
    pose proof (finish_up_lookup c1 h) as Hl. rewrite finish_up_eq in Hl.
    cbn [fst] in Hl. rewrite Hl in Hlook. clear Hl.
    cbn [with_tasks _tasks entered_finish_up] in Hh.
    destruct (decide (h ∈ _tasks c1)) as [Hin|Hnin].
    + destruct (tasks c1 !! h) as [t0|]; [|discriminate].
      cbn in Hlook. inversion Hlook; subst.
      split; [apply cancel_not_pending|].
      destruct t0 as [[| |r0] n0]; reflexivity.
    + exfalso. apply Hnin. destruct Hh as [Hh|Hh]; [exact Hh|].
      apply Hall. split; [exact Hh|]. now apply lookup_lt_Some in Hlook.
  - exact Hres.
Qed.

Lemma run_tears_down_exactly_once_witness :
  let final := fst (run accepting_peer "test" "123" charge_point) in
  tasks final !! 0%nat
    = Some {| asyncio._state := asyncio.CANCELLING; asyncio.thrown := 0 |}
  /\ 0%nat ∈ _tasks final
  /\ asyncio.CANCELLING <> asyncio.PENDING
  /\ finish_up_calls final = 1%nat.
Proof.
  intros final.
  assert (A : tasks final !! 0%nat
              = Some {| asyncio._state := asyncio.CANCELLING;
                        asyncio.thrown := 0 |})
    by (vm_compute; reflexivity).
  assert (B : 0%nat ∈ _tasks final) by (vm_compute; left).
  destruct (run_tears_down_exactly_once accepting_peer "test" "123" charge_point)
    as (_ & Hcalls & Htasks & _).
  split; [exact A|]. split; [exact B|].
  split; [exact (proj1 (Htasks 0%nat _ A (or_introl B))) | exact Hcalls].
Defined.

Lemma exchange_boot_eq env c :
  exists c',
    exchange_message env 1 (send_boot_notification env) c
    = (c', call_boot env
             (BootNotificationPayload
                [("model", "22KW EC Charge"); ("vendor_name", "EnBW")] "PowerUp"))
    /\ forall c0 reqs,
         quiet c0 reqs c ->
         quiet c0 (reqs ++ [BootNotificationPayload
                    [("model", "22KW EC Charge"); ("vendor_name", "EnBW")]
                    "PowerUp"]) c'.
Proof.
  unfold exchange_message, await_task, send_boot_notification, ensure_future,
    lift, suspend, mbind, mret, M_bind, M_ret, bind, ret, get, modify.
  cbn beta iota.
  destruct (call_boot env _) as [r|e]; eexists; (split; [reflexivity|]);
    intros c0 reqs (H1 & H2 & H3 & H4); unfold quiet;
    cbn [records finish_up_calls sent cp_id with_tasks with__tasks with_sent];
    rewrite H3, app_assoc; auto.
Qed.

(** C5.  An absent response makes [handle_boot_notification_response]
    raise the [RuntimeError] "No response received with boot notification
    request." and log nothing; a response that is present adds exactly one
    record to the log, chosen by its status: an acknowledgement for Accepted,
    a pending notice for Pending, a warning for Rejected.  In a run where
    the connection opens and closes without fault and the boot call has no
    response, [run] logs the error "Unknown error happened on server." and
    nothing else, then tears down and returns. *)
Theorem boot_notification_response_handling (env : Environment)
    (username password : string) (c : Client) :
  handle_boot_notification_response None c
  = (c, Raised (RuntimeError "No response received with boot notification request."))
  /\ (forall r : BootNotificationResult,
        handle_boot_notification_response (Some r) c
        = (with_record (boot_log (status r)) c, Normal tt)
        /\ records (with_record (boot_log (status r)) c)
           = (records c ++ [boot_log (status r)])%list)
  /\ ((forall con, connect env con = Normal tt) ->
      (forall req, call_boot env req = Normal None) ->
      close env = Normal tt ->
      exists c1,
        run env username password c = (fst (finish_up c1), Normal tt)
        /\ finish_up_calls c1 = finish_up_calls c
        /\ records c1
           = (records c ++ [{| level := ERROR;
                               message := "Unknown error happened on server." |}])%list
        /\ records (fst (finish_up c1)) = records c1).
Proof.
  split; [reflexivity|]. split.
  - intros r. split; [|reflexivity]. cbn. destruct (status r); reflexivity.
  - intros Hconnect Hboot Hclose. unfold run.
    match goal with |- context [async_with ?a ?x ?b] =>
      set (aenter := a); set (aexit := x); set (body := b) end.
    assert (EA : exists f con, aenter c = (with_tasks f c, Normal con)).
    { unfold aenter, _create_connection, suspend, lift,
        mbind, mret, M_bind, M_ret, bind, ret, get, modify.
      cbn beta iota. rewrite Hconnect. eexists _, _. reflexivity. }
    destruct EA as (f0 & con & EA).
    assert (EB : exists cd,
               body con (with_tasks f0 c)
               = (cd, Raised (RuntimeError
                        "No response received with boot notification request."))
               /\ records cd = records c
               /\ finish_up_calls cd = finish_up_calls c).
    { unfold body, make_handshake, ensure_future,
        mbind, mret, M_bind, M_ret, bind, ret, get, modify.
      cbn beta iota. cbn [csms_client with_csms_client]. cbn beta iota.
      match goal with |- context [exchange_message env 1 _ ?st] =>
        destruct (exchange_boot_eq env st) as (c' & E & Hq);
        specialize (Hq st [] (conj eq_refl (conj eq_refl (conj (eq_sym (app_nil_r _)) eq_refl))))
      end.
      rewrite E, Hboot. cbn beta iota.
      exists c'. split; [reflexivity|].
      destruct Hq as (H1 & H2 & _). rewrite H1, H2. split; reflexivity. }
    destruct EB as (cd & EB & Hrec & Hcalls).
    assert (EX : exists f, aexit cd = (with_tasks f cd, Normal tt)).
    { unfold aexit, suspend, lift, mbind, mret, M_bind, M_ret, bind, modify.
      cbn beta iota. rewrite Hclose. eexists. reflexivity. }
    destruct EX as (f3 & EX).
    pose (r := {| level := ERROR; message := "Unknown error happened on server." |}).
    exists (with_record r (with_tasks f3 cd)).
    split.
    + apply try_finally_eq with (s1 := with_record r (with_tasks f3 cd));
        [|rewrite finish_up_eq; reflexivity].
      rewrite (try_except_handled _ _ c (with_tasks f3 cd)
                 (RuntimeError "No response received with boot notification request.")
                 (log ERROR "Unknown error happened on server."));
        [reflexivity| |reflexivity].
      rewrite (async_with_entered _ _ _ _ _ _ EA).
      now apply try_finally_eq with (s1 := cd).
    + split; [exact Hcalls|].
      split; [|reflexivity].
      cbn [with_record with_tasks records]. now rewrite Hrec.
Qed.

Lemma boot_notification_response_handling_witness :
  (forall con, connect silent_peer con = Normal tt)
  /\ (forall req, call_boot silent_peer req = Normal None)
  /\ close silent_peer = Normal tt
  /\ exists c1,
       run silent_peer "test" "123" charge_point = (fst (finish_up c1), Normal tt)
       /\ records c1
          = [{| level := ERROR; message := "Unknown error happened on server." |}].
Proof.
  assert (A : forall con, connect silent_peer con = Normal tt)
    by (intros con; reflexivity).
  assert (B : forall req, call_boot silent_peer req = Normal None)
    by (intros req; reflexivity).
  assert (C : close silent_peer = Normal tt) by reflexivity.
  split; [exact A|]. split; [exact B|]. split; [exact C|].
  destruct (proj2 (proj2 (boot_notification_response_handling silent_peer
                            "test" "123" charge_point)) A B C)
    as (c1 & E & _ & Hrec & _).
  exists c1. split; [exact E | exact Hrec].
Defined.

(** C8.  [finish_up] raises nothing, and a second [finish_up] changes
    nothing but the count of its entries: the tasks are the same after two
    teardowns as after one.  A registered task that is not done when the
    teardown starts has its cancellation requested; the next cycle of the
    loop throws [CancelledError] into it once and ends it as cancelled, and a
    further teardown and cycle throw nothing more. *)
Theorem teardown_idempotent (c : Client) :
  let c1 := fst (finish_up c) in
  let c2 := fst (finish_up c1) in
  snd (finish_up c) = Normal tt
  /\ snd (finish_up c1) = Normal tt
  /\ c2 = entered_finish_up c1
  /\ tasks c2 = tasks c1
  /\ forall h t,
       h ∈ _tasks c -> tasks c !! h = Some t -> asyncio.done t = false ->
       tasks c1 !! h
       = Some {| asyncio._state := asyncio.CANCELLING;
                 asyncio.thrown := asyncio.thrown t |}
       /\ tasks (next_cycle c2) !! h
          = Some {| asyncio._state := asyncio.FINISHED asyncio.cancelled;
                    asyncio.thrown := S (asyncio.thrown t) |}
       /\ tasks (next_cycle (fst (finish_up (next_cycle c2)))) !! h
          = Some {| asyncio._state := asyncio.FINISHED asyncio.cancelled;
                    asyncio.thrown := S (asyncio.thrown t) |}.
Proof.
  intros c1 c2.
  assert (E2 : c2 = entered_finish_up c1) by apply finish_up_twice.
  split; [reflexivity|]. split; [reflexivity|]. split; [exact E2|].
  split; [now rewrite E2|].
  intros h t Hin Hlook Hdone.
  assert (H1 : tasks c1 !! h
               = Some {| asyncio._state := asyncio.CANCELLING;
                         asyncio.thrown := asyncio.thrown t |}).
  { unfold c1. rewrite finish_up_lookup, decide_True by assumption.
    rewrite Hlook. cbn. unfold asyncio.cancel. now rewrite Hdone. }
  assert (H2 : tasks (next_cycle c2) !! h
               = Some {| asyncio._state := asyncio.FINISHED asyncio.cancelled;
                         asyncio.thrown := S (asyncio.thrown t) |}).
  { rewrite E2. cbn [next_cycle with_tasks tasks entered_finish_up].
    rewrite list_lookup_fmap, H1. reflexivity. }
  split; [exact H1|]. split; [exact H2|].
  set (c3 := next_cycle c2) in *.
  change (tasks (next_cycle (fst (finish_up c3))))
    with (map asyncio.throw_cancelled (tasks (fst (finish_up c3)))).
  rewrite list_lookup_fmap, finish_up_lookup.
  destruct (decide (h ∈ _tasks c3)); rewrite H2; reflexivity.
Qed.

Lemma teardown_idempotent_witness :
  0%nat ∈ _tasks connected
  /\ tasks connected !! 0%nat
     = Some {| asyncio._state := asyncio.PENDING; asyncio.thrown := 0 |}
  /\ tasks (next_cycle (fst (finish_up (fst (finish_up connected))))) !! 0%nat
     = Some {| asyncio._state := asyncio.FINISHED asyncio.cancelled;
               asyncio.thrown := 1 |}.
Proof.
  assert (A : 0%nat ∈ _tasks connected) by (vm_compute; left).
  assert (B : tasks connected !! 0%nat
              = Some {| asyncio._state := asyncio.PENDING; asyncio.thrown := 0 |})
    by reflexivity.
  split; [exact A|]. split; [exact B|].
  destruct (teardown_idempotent connected) as (_ & _ & _ & _ & H).
  exact (proj1 (proj2 (H 0%nat _ A B eq_refl))).
Defined.

End ClientFacts.

(** * More of the server *)

Section ServerMore.

Import Py ocpp server example shape.

Ltac step_py :=
  unfold worker, worker_until_await, authenticate, validate_protocol, start_up,
    open_session, serve_session, stop_server, reject_handshake, getitem,
    assert, log, set_csms_server, set_task, new_CSMSServer, refused,
    mbind, mret, M_bind, M_ret, bind, ret, raise, try_except, modify, get;
  cbn beta iota.

(** X1.  For a request whose [Authorization] header was built from a pair
    [(u, p)], the authentication block of [worker] falls through, logging
    nothing, exactly when the pair is the configured one. *)
Theorem authenticate_accepts_only_configured_pair
    (websocket : WebSocketServerProtocol) (u p : string) (s : Server) :
  request_headers websocket !! "Authorization"
    = Some (build_authorization_basic u p) ->
  (authenticate websocket s = (s, Normal (inr tt))
   <-> (u, p) = (USERNAME, PASSWORD)).
Proof.
  intros H. unfold authenticate. step_py. rewrite H. cbn beta iota.
  destruct (String.eqb (build_authorization_basic u p)
              (build_authorization_basic USERNAME PASSWORD)) eqn:E.
  - apply String.eqb_eq in E. split; [intros _|reflexivity].
    now apply build_authorization_basic_configured.
  - apply String.eqb_neq in E. split; [discriminate|].
    intros Hp. exfalso. apply E. now inversion Hp.
Qed.

Lemma authenticate_accepts_only_configured_pair_witness :
  request_headers station !! "Authorization"
    = Some (build_authorization_basic "test" "123")
  /\ authenticate station listening = (listening, Normal (inr tt)).
Proof.
  assert (A : request_headers station !! "Authorization"
              = Some (build_authorization_basic "test" "123"))
    by (vm_compute; reflexivity).
  split; [exact A|].
  exact (proj2 (authenticate_accepts_only_configured_pair station "test" "123"
                  listening A) eq_refl).
Defined.



(** X3.  Whenever [worker] returns a rejection, whatever the session would
    have done, the rejection carries no extra header, and the only change to
    the server is one error record made of the reason followed by
    " - Connection closed.": no session is constructed, the slot and the
    server task keep their values. *)
Theorem every_rejection_is_logged (start : CSMSServer -> M Server unit)
    (websocket : WebSocketServerProtocol) (path : string)
    (s s' : Server) (r : rejection) :
  worker start websocket path s = (s', Normal (Some r)) ->
  exists http_status msg,
    r = (http_status, [], msg)
    /\ s' = fst (log ERROR (msg ++ " - Connection closed.") s)
    /\ records s' = (records s
                     ++ [{| level := ERROR;
                            message := msg ++ " - Connection closed." |}])%list
    /\ constructed s' = constructed s
    /\ csms_server s' = csms_server s
    /\ _task s' = _task s.
Proof.
  step_py.
  destruct (request_headers websocket !! "Authorization") as [h|];
    cbn beta iota.
  2:{ intros H. inversion H; subst. eexists _, _. repeat split. }
  destruct (String.eqb h _); cbn beta iota.
  2:{ intros H. inversion H; subst. eexists _, _. repeat split. }
  destruct (request_headers websocket !! "Sec-WebSocket-Protocol") as [q|];
    cbn beta iota.
  2:{ intros H. inversion H; subst. eexists _, _. repeat split. }
  destruct (truthy (subprotocol websocket)); cbn beta iota.
  2:{ intros H. inversion H; subst. eexists _, _. repeat split. }
  cbn [csms_server].
  match goal with |- context [start ?c ?st] => destruct (start c st) as [s2 [[]|e]] end;
    cbn beta iota; [discriminate|].
  destruct e; cbn beta iota; try discriminate.
  destruct (_task s2); cbn beta iota; [|discriminate].
  cbn [csms_server].
  destruct (csms_server s2); cbn beta iota; discriminate.
Qed.

Lemma every_rejection_is_logged_witness :
  worker never_closes bare "/CP_01" listening
  = (fst (log ERROR "Subprotocol missing. - Connection closed." listening),
     Normal (Some (BAD_REQUEST, [], "Subprotocol missing.")))
  /\ exists http_status msg,
       ((BAD_REQUEST, [], "Subprotocol missing.") : rejection)
       = (http_status, [], msg)
       /\ constructed
            (fst (log ERROR "Subprotocol missing. - Connection closed." listening))
          = constructed listening.
Proof.
  assert (A : worker never_closes bare "/CP_01" listening
              = (fst (log ERROR "Subprotocol missing. - Connection closed."
                        listening),
                 Normal (Some (BAD_REQUEST, [], "Subprotocol missing."))))
    by (vm_compute; reflexivity).
  split; [exact A|].
  destruct (every_rejection_is_logged never_closes bare "/CP_01" listening _ _ A)
    as (st & msg & E & _ & _ & Hc & _).
  exists st, msg. split; [exact E | exact Hc].
Defined.

Lemma worker_accepting start websocket path s :
  request_headers websocket !! "Authorization"
    = Some (build_authorization_basic USERNAME PASSWORD) ->
  is_Some (request_headers websocket !! "Sec-WebSocket-Protocol") ->
  truthy (subprotocol websocket) = true ->
  worker start websocket path s
  = (serve_session start;; mret None)
      (fst (worker_until_await websocket path s))
  /\ csms_server (fst (worker_until_await websocket path s))
     = Some {| id := strip "/" path; _connection := websocket |}
  /\ _task (fst (worker_until_await websocket path s)) = _task s.
Proof.
  intros Ha [q Hq] Ht. step_py. rewrite Ha. cbn beta iota.
  rewrite String.eqb_refl. cbn beta iota. rewrite Hq. cbn beta iota.
  rewrite Ht. cbn beta iota. repeat split.
Qed.

(** X4.  A session that ends with a [WebSocketException] does not make
    [worker] fail: the worker asks for the cancellation of the server task,
    logs one warning that names the station found in the slot [csms_server]
    at that time, with the text of the exception, and returns. *)
Theorem websocket_exception_stops_server
    (start : CSMSServer -> M Server unit)
    (websocket : WebSocketServerProtocol) (path : string) (s s2 : Server)
    (m : string) (t : asyncio.Task) (c2 : CSMSServer) :
  request_headers websocket !! "Authorization"
    = Some (build_authorization_basic USERNAME PASSWORD) ->
  is_Some (request_headers websocket !! "Sec-WebSocket-Protocol") ->
  truthy (subprotocol websocket) = true ->
  start {| id := strip "/" path; _connection := websocket |}
    (fst (worker_until_await websocket path s))
  = (s2, Raised (WebSocketException m)) ->
  _task s2 = Some t ->
  csms_server s2 = Some c2 ->
  worker start websocket path s
  = (fst (log WARNING ("Connection to charging point " ++ id c2 ++ " closed: " ++ m)
            (fst (set_task (fst (asyncio.cancel t)) s2))),
     Normal None).
Proof.
  intros Ha Hq Ht Hstart Htask Hslot.
  destruct (worker_accepting start websocket path s Ha Hq Ht) as (E & Hc & _).
  rewrite E. clear E.
  unfold serve_session, stop_server, log, set_task,
    mbind, mret, M_bind, M_ret, bind, ret, raise, try_except, modify, get.
  cbn beta iota. rewrite Hc. cbn beta iota. rewrite Hstart. cbn beta iota.
  rewrite Htask. cbn beta iota. cbn [csms_server]. rewrite Hslot. reflexivity.
Qed.

Lemma websocket_exception_stops_server_witness :
  let closed := fun _ : CSMSServer => raise (WebSocketException "gone") in
  let ended := fst (worker closed station "/CP_01" listening) in
  snd (worker closed station "/CP_01" listening) = Normal None
  /\ _task ended
     = Some {| asyncio._state := asyncio.CANCELLING; asyncio.thrown := 0 |}
  /\ last (records ended)
     = Some {| level := WARNING;
               message := "Connection to charging point CP_01 closed: gone" |}.
Proof.
  intros closed ended.
  pose proof (websocket_exception_stops_server closed station "/CP_01" listening
                (fst (worker_until_await station "/CP_01" listening)) "gone"
                {| asyncio._state := asyncio.PENDING; asyncio.thrown := 0 |}
                {| id := "CP_01"; _connection := station |}
                ltac:(vm_compute; reflexivity)
                ltac:(exists "ocpp1.6, ocpp2.0.1"; vm_compute; reflexivity)
                ltac:(vm_compute; reflexivity)
                ltac:(reflexivity)
                ltac:(vm_compute; reflexivity)
                ltac:(vm_compute; reflexivity)) as H.
  unfold ended. rewrite H. cbn [fst snd].
  split; [reflexivity|]. split; vm_compute; reflexivity.
Defined.

(** X5.  A session that ends normally makes [worker] return with the state
    the session left; a session that ends with an exception that is not a
    [WebSocketException] makes [worker] raise that exception, again with the
    state the session left: the server task is not cancelled and nothing is
    logged for it. *)
Theorem other_session_endings (start : CSMSServer -> M Server unit)
    (websocket : WebSocketServerProtocol) (path : string) (s s2 : Server)
    (o : outcome unit) :
  request_headers websocket !! "Authorization"
    = Some (build_authorization_basic USERNAME PASSWORD) ->
  is_Some (request_headers websocket !! "Sec-WebSocket-Protocol") ->
  truthy (subprotocol websocket) = true ->
  start {| id := strip "/" path; _connection := websocket |}
    (fst (worker_until_await websocket path s))
  = (s2, o) ->
  match o with
  | Normal _ => worker start websocket path s = (s2, Normal None)
  | Raised (WebSocketException _) => True
  | Raised e => worker start websocket path s = (s2, Raised e)
  end.
Proof.
  intros Ha Hq Ht Hstart.
  destruct (worker_accepting start websocket path s Ha Hq Ht) as (E & Hc & _).
  rewrite E. clear E.
  unfold serve_session,
    mbind, mret, M_bind, M_ret, bind, ret, raise, try_except, modify, get.
  cbn beta iota. rewrite Hc. cbn beta iota. rewrite Hstart.
  destruct o as [[]|e]; [reflexivity|]. destruct e; reflexivity || exact I.
Qed.

Lemma other_session_endings_witness :
  let timeout := fun _ : CSMSServer => raise (S := Server) (A := unit) TimeoutError in
  worker timeout station "/CP_01" listening
  = (fst (worker_until_await station "/CP_01" listening), Raised TimeoutError).
Proof.
  intros timeout.
  exact (other_session_endings timeout station "/CP_01" listening
           (fst (worker_until_await station "/CP_01" listening))
           (Raised TimeoutError)
           ltac:(vm_compute; reflexivity)
           ltac:(exists "ocpp1.6, ocpp2.0.1"; vm_compute; reflexivity)
           ltac:(vm_compute; reflexivity)
           ltac:(reflexivity)).
Defined.

(** X6.  [stop_server] on a server that was never started raises
    [AttributeError] and changes nothing.  On a started server without a
    session it asks for the cancellation of the server task first and then
    raises [AttributeError], with nothing logged. *)
Theorem stop_server_without_task_or_session (exception : exn) (s : Server) :
  (_task s = None ->
   exists what, stop_server exception s = (s, Raised (AttributeError what)))
  /\ (forall t,
        _task s = Some t -> csms_server s = None ->
        exists what,
          stop_server exception s
          = (fst (set_task (fst (asyncio.cancel t)) s),
             Raised (AttributeError what))
          /\ records (fst (stop_server exception s)) = records s).
Proof.
  split.
  - intros H. unfold stop_server, mbind, M_bind, bind, get, raise.
    cbn beta iota. rewrite H. eexists. reflexivity.
  - intros t H Hc. unfold stop_server, set_task,
      mbind, M_bind, bind, get, raise, modify.
    cbn beta iota. rewrite H. cbn beta iota. cbn [csms_server]. rewrite Hc.
    eexists. split; reflexivity.
Qed.

Lemma stop_server_without_task_or_session_witness :
  _task (init "2024-01-01T00:00:00") = None
  /\ (exists what,
        stop_server CancelledError (init "2024-01-01T00:00:00")
        = (init "2024-01-01T00:00:00", Raised (AttributeError what)))
  /\ _task listening
     = Some {| asyncio._state := asyncio.PENDING; asyncio.thrown := 0 |}
  /\ csms_server listening = None
  /\ _task (fst (stop_server CancelledError listening))
     = Some {| asyncio._state := asyncio.CANCELLING; asyncio.thrown := 0 |}.
Proof.
  split; [reflexivity|].
  split; [exact (proj1 (stop_server_without_task_or_session CancelledError
                          (init "2024-01-01T00:00:00")) eq_refl)|].
  split; [reflexivity|]. split; [reflexivity|].
  destruct (proj2 (stop_server_without_task_or_session CancelledError listening)
              _ eq_refl eq_refl) as (what & E & _).
  rewrite E. reflexivity.
Defined.

Lemma lstrip_no_start (c : ascii) (s : string) :
  starts_with c (lstrip c s) = false.
Proof.
  induction s as [|a s IH]; [reflexivity|].
  cbn [lstrip]. destruct (Ascii.eqb a c) eqn:E; [exact IH|].
  cbn [starts_with]. exact E.
Qed.

Lemma lstrip_fixed (c : ascii) (s : string) :
  starts_with c s = false -> lstrip c s = s.
Proof.
  destruct s as [|a s]; [reflexivity|].
  cbn [starts_with lstrip]. intros E. now rewrite E.
Qed.

Lemma rstrip_no_end (c : ascii) (s : string) :
  ends_with c (rstrip c s) = false.
Proof.
  induction s as [|a s IH]; [reflexivity|].
  cbn [rstrip]. destruct (rstrip c s) as [|b r] eqn:Er.
  - destruct (Ascii.eqb a c) eqn:E; [reflexivity|]. cbn [ends_with]. exact E.
  - exact IH.
Qed.

Lemma rstrip_fixed (c : ascii) (s : string) :
  ends_with c s = false -> rstrip c s = s.
Proof.
  induction s as [|a s IH]; [reflexivity|].
  destruct s as [|b s'].
  - cbn [ends_with rstrip]. intros E. now rewrite E.
  - intros E. change (ends_with c (String b s') = false) in E.
    specialize (IH E).
    change (rstrip c (String a (String b s')))
      with (match rstrip c (String b s') with
            | EmptyString =>
                if Ascii.eqb a c then EmptyString else String a EmptyString
            | r => String a r
            end).
    rewrite IH. reflexivity.
Qed.

Lemma rstrip_keeps_start (c : ascii) (s : string) :
  starts_with c s = false -> starts_with c (rstrip c s) = false.
Proof.
  destruct s as [|a s]; [reflexivity|].
  cbn [starts_with rstrip]. intros E.
  destruct (rstrip c s); [rewrite E|]; cbn [starts_with]; exact E.
Qed.

(** X7.  The identifier of the session that [worker] opens is the path
    without its leading and trailing slashes: it never begins or ends with a
    slash, slashes inside are kept, and for the path ["/" ++ cp_id] that the
    client connects to it is [cp_id] again, as long as [cp_id] itself neither
    begins nor ends with a slash.  The session is bound to the connection it
    came with, and it is the one session added to those constructed. *)
Theorem session_id_from_path (websocket : WebSocketServerProtocol)
    (path : string) (s : Server) :
  let s1 := fst (open_session websocket path s) in
  let c := {| id := strip "/" path; _connection := websocket |} in
  csms_server s1 = Some c
  /\ constructed s1 = (constructed s ++ [c])%list
  /\ starts_with "/" (strip "/" path) = false
  /\ ends_with "/" (strip "/" path) = false
  /\ (starts_with "/" path = false -> ends_with "/" path = false ->
      strip "/" path = path)
  /\ (forall cp_id,
        starts_with "/" cp_id = false -> ends_with "/" cp_id = false ->
        path = "/" ++ cp_id -> strip "/" path = cp_id).
Proof.
  cbv zeta. split; [reflexivity|]. split; [reflexivity|].
  unfold strip.
  split; [apply rstrip_keeps_start, lstrip_no_start|].
  split; [apply rstrip_no_end|].
  split.
  - intros Hs He. rewrite (lstrip_fixed _ _ Hs). now apply rstrip_fixed.
  - intros cp Hs He ->.
    change (lstrip "/" ("/" ++ cp)) with (lstrip "/" cp).
    rewrite (lstrip_fixed _ _ Hs). now apply rstrip_fixed.
Qed.

Lemma session_id_from_path_witness :
  starts_with "/" "CP_01" = false
  /\ ends_with "/" "CP_01" = false
  /\ strip "/" ("/" ++ "CP_01") = "CP_01".
Proof.
  split; [reflexivity|]. split; [reflexivity|].
  exact (proj2 (proj2 (proj2 (proj2 (proj2
           (session_id_from_path station ("/" ++ "CP_01") listening)))))
           "CP_01" eq_refl eq_refl eq_refl).
Defined.

End ServerMore.

(** * More of the client *)

Section ClientMore.

Import Py ocpp client example shape.

Lemma advanced_refl c : advanced c [] [] [] c.
Proof.
  unfold advanced. rewrite !app_nil_r. cbn [length]. repeat split. lia.
Qed.

Lemma advanced_with_tasks c recs reqs hs c' f :
  (forall ts, length (f ts) = length ts) ->
  advanced c recs reqs hs c' -> advanced c recs reqs hs (with_tasks f c').
Proof.
  intros Hf (H1 & H2 & H3 & H4 & H5 & H6 & H7). unfold advanced.
  cbn [with_tasks records sent _tasks tasks finish_up_calls utcnow_isoformat cp_id].
  rewrite Hf. auto 10.
Qed.

Lemma advanced_with_csms_client c recs reqs hs c' x :
  advanced c recs reqs hs c' -> advanced c recs reqs hs (with_csms_client x c').
Proof. intros H. exact H. Qed.

Lemma advanced_with_record c recs reqs hs c' r :
  advanced c recs reqs hs c' ->
  advanced c (recs ++ [r]) reqs hs (with_record r c').
Proof.
  intros (H1 & H2 & H3 & H4 & H5 & H6 & H7). unfold advanced.
  cbn [with_record records sent _tasks tasks finish_up_calls utcnow_isoformat cp_id].
  rewrite H1, app_assoc. auto 10.
Qed.

Lemma advanced_with_sent c recs reqs hs c' r :
  advanced c recs reqs hs c' ->
  advanced c recs (reqs ++ [r]) hs (with_sent r c').
Proof.
  intros (H1 & H2 & H3 & H4 & H5 & H6 & H7). unfold advanced.
  cbn [with_sent records sent _tasks tasks finish_up_calls utcnow_isoformat cp_id].
  rewrite H2, app_assoc. auto 10.
Qed.

Lemma advanced_spawn c recs reqs hs c' :
  advanced c recs reqs hs c' ->
  advanced c recs reqs (hs ++ [length (tasks c')])
    (with__tasks (fun l => (l ++ [length (tasks c')])%list)
       (with_tasks
          (fun ts => (ts ++ [{| asyncio._state := asyncio.PENDING;
                                asyncio.thrown := 0 |}])%list) c')).
Proof.
  intros (H1 & H2 & H3 & H4 & H5 & H6 & H7). unfold advanced.
  cbn [with_tasks with__tasks records sent _tasks tasks finish_up_calls
       utcnow_isoformat cp_id].
  rewrite H3, app_assoc, !length_app. cbn [length].
  repeat split; auto. lia.
Qed.

Lemma suspend_keeps env n c :
  exists f, suspend env n c = (with_tasks f c, Normal tt)
            /\ forall ts, length (f ts) = length ts.
Proof. eexists. split; [reflexivity|]. intros ts. apply length_fold_finish. Qed.

Lemma done_finish (r : asyncio.result) (t : asyncio.Task) :
  asyncio.done (asyncio.finish r t) = true.
Proof. destruct t as [[| |r0] n]; reflexivity. Qed.

Lemma exchange_message_runs {A : Type} (env : Environment) (n : nat)
    (func : M Client A) (c : Client) :
  let h := length (tasks c) in
  let started :=
    with__tasks (fun l => (l ++ [h])%list)
      (with_tasks
         (fun ts => (ts ++ [{| asyncio._state := asyncio.PENDING;
                               asyncio.thrown := 0 |}])%list) c) in
  exists f,
    exchange_message env n func c
    = (with_tasks f (fst (func started)), snd (func started))
    /\ (forall ts, length (f ts) = length ts)
    /\ (forall ts t, f ts !! h = Some t -> asyncio.done t = true).
Proof.
  cbv zeta.
  unfold exchange_message, ensure_future, await_task,
    mbind, mret, M_bind, M_ret, bind, ret, get, modify.
  cbn beta iota.
  match goal with |- context [func ?x] => destruct (func x) as [c1 o] end.
  destruct (suspend_keeps env n c1) as (f & E & Hf). rewrite E.
  cbn [fst snd with_tasks tasks].
  exists (fun ts => alter (asyncio.finish (result_of o)) (length (tasks c)) (f ts)).
  split; [reflexivity|]. split.
  - intros ts. now rewrite length_alter.
  - intros ts t. rewrite list_lookup_alter.
    destruct (decide (length (tasks c) = length (tasks c))) as [_|Hne];
      [|congruence].
    destruct (f ts !! length (tasks c)) as [t0|]; [|discriminate].
    cbn. intros H. inversion H. apply done_finish.
Qed.

(** X8.  [exchange_message] creates the task and registers it in [_tasks]
    before the function runs, so the handle stays registered when the
    function raises; the caller gets the result or the exception of the
    function; and when the caller resumes that task is done.  Beside the
    state of the tasks, whose number it keeps, it adds nothing to what the
    function does. *)
Theorem exchange_message_contract {A : Type} (env : Environment) (n : nat)
    (func : M Client A) (c : Client) :
  let h := length (tasks c) in
  let started :=
    with__tasks (fun l => (l ++ [h])%list)
      (with_tasks
         (fun ts => (ts ++ [{| asyncio._state := asyncio.PENDING;
                               asyncio.thrown := 0 |}])%list) c) in
  _tasks started = (_tasks c ++ [h])%list
  /\ tasks started !! h
     = Some {| asyncio._state := asyncio.PENDING; asyncio.thrown := 0 |}
  /\ exists f,
       exchange_message env n func c
       = (with_tasks f (fst (func started)), snd (func started))
       /\ (forall ts, length (f ts) = length ts)
       /\ (forall ts t, f ts !! h = Some t -> asyncio.done t = true).
Proof.
  cbv zeta. split; [reflexivity|]. split.
  { cbn [with__tasks with_tasks tasks].
    rewrite lookup_app_r by lia. now rewrite Nat.sub_diag. }
  apply exchange_message_runs.
Qed.

Lemma exchange_message_contract_witness :
  let failing : M Client unit := raise TimeoutError in
  snd (exchange_message silent_peer 1 failing connected) = Raised TimeoutError
  /\ _tasks (fst (exchange_message silent_peer 1 failing connected))
     = [0%nat; 1%nat]
  /\ asyncio.done <$> tasks (fst (exchange_message silent_peer 1 failing connected))
                        !! 1%nat
     = Some true.
Proof.
  intros failing.
  destruct (exchange_message_contract silent_peer 1 failing connected)
    as (_ & _ & f & E & Hlen & Hdone).
  rewrite E. cbn [fst snd].
  split; [reflexivity|]. split; [reflexivity|].
  cbn [with_tasks tasks].
  destruct (f (tasks (fst (failing
              (with__tasks (fun l => (l ++ [length (tasks connected)])%list)
                 (with_tasks
                    (fun ts => (ts ++ [{| asyncio._state := asyncio.PENDING;
                                          asyncio.thrown := 0 |}])%list)
                    connected))))) !! 1%nat) as [t|] eqn:El.
  - cbn. f_equal. exact (Hdone _ t El).
  - exfalso. apply lookup_ge_None in El. rewrite Hlen in El. cbn in El. lia.
Defined.

(** *** [run], layer by layer *)

(** The [try]/[except]/[finally] of [run] around any inner computation. *)
Lemma supervisor_eq (inner : M Client unit) (c ci : Client) (o : outcome unit) :
  inner c = (ci, o) ->
  try_finally
    (try_except inner
       (fun e =>
          match e with
          | WebSocketException _ =>
              Some (log ERROR ("Connection refused from Server. Make sure you entered"
                               ++ " the correct credentials."))
          | RuntimeError _ =>
              Some (log ERROR "Unknown error happened on server.")
          | _ => None
          end))
    finish_up c
  = match o with
    | Normal _ => (fst (finish_up ci), Normal tt)
    | Raised (WebSocketException _) =>
        (fst (finish_up
                (with_record
                   {| level := ERROR;
                      message := "Connection refused from Server. Make sure you entered"
                                 ++ " the correct credentials." |} ci)),
         Normal tt)
    | Raised (RuntimeError _) =>
        (fst (finish_up
                (with_record
                   {| level := ERROR;
                      message := "Unknown error happened on server." |} ci)),
         Normal tt)
    | Raised e => (fst (finish_up ci), Raised e)
    end.
Proof.
  intros H. unfold try_finally, try_except. rewrite H.
  destruct o as [[]|e]; [reflexivity|]. destruct e; reflexivity.
Qed.

(** The [async with] of [run] around any body. *)
Lemma connection_eq (env : Environment) (username password : string)
    (body : Connection -> M Client unit) (c : Client) :
  let con := {| uri := "ws://" ++ username ++ ":" ++ password ++ "@"
                       ++ settings.WEBSOCKET_IP ++ ":" ++ settings.WEBSOCKET_PORT
                       ++ "/" ++ cp_id c;
                subprotocols := settings.OCPP_SUBPROTOCOLS |} in
  exists f0,
    (forall ts, length (f0 ts) = length ts)
    /\ match connect env con with
       | Raised e =>
           async_with
             (con ← _create_connection username password;
              suspend env 0;;
              lift (connect env con);;
              mret con)
             (suspend env 3;; lift (close env)) body c
           = (with_tasks f0 c, Raised e)
       | Normal _ =>
           exists f3,
             (forall ts, length (f3 ts) = length ts)
             /\ async_with
                  (con ← _create_connection username password;
                   suspend env 0;;
                   lift (connect env con);;
                   mret con)
                  (suspend env 3;; lift (close env)) body c
                = (with_tasks f3 (fst (body con (with_tasks f0 c))),
                   match close env with
                   | Normal _ => snd (body con (with_tasks f0 c))
                   | Raised e => Raised e
                   end)
       end.
Proof.
  cbv zeta.
  destruct (suspend_keeps env 0 c) as (f0 & E0 & Hf0).
  exists f0. split; [exact Hf0|].
  unfold async_with, try_finally, _create_connection, lift,
    mbind, mret, M_bind, M_ret, bind, ret, get.
  cbn beta iota. rewrite E0. cbn beta iota.
  destruct (connect env _) as [[]|e]; [|reflexivity].
  destruct (body _ (with_tasks f0 c)) as [cb ob].
  destruct (suspend_keeps env 3 cb) as (f3 & E3 & Hf3).
  exists f3. split; [exact Hf3|].
  rewrite E3. cbn [fst snd].
  destruct (close env) as [[]|e]; reflexivity.
Qed.

Lemma exchange_boot_advanced env c0 recs reqs hs c :
  advanced c0 recs reqs hs c ->
  exists c',
    exchange_message env 1 (send_boot_notification env) c
    = (c', call_boot env boot_request)
    /\ advanced c0 recs (reqs ++ [boot_request]) (hs ++ [length (tasks c)]) c'.
Proof.
  intros Hadv.
  destruct (exchange_message_runs env 1 (send_boot_notification env) c)
    as (f & E & Hf & _).
  rewrite E. eexists. split.
  - f_equal. unfold send_boot_notification, lift,
      mbind, mret, M_bind, M_ret, bind, ret, modify.
    cbn beta iota. now destruct (call_boot env _).
  - apply advanced_with_tasks; [exact Hf|].
    apply advanced_spawn in Hadv.
    unfold send_boot_notification, lift,
      mbind, mret, M_bind, M_ret, bind, ret, modify.
    cbn beta iota.
    destruct (call_boot env _); cbn [fst]; now apply advanced_with_sent.
Qed.

Lemma exchange_status_advanced env c0 recs reqs hs c :
  advanced c0 recs reqs hs c ->
  exists c',
    exchange_message env 2 (send_status_notification env) c
    = (c', call_status env (status_request (utcnow_isoformat c0)))
    /\ advanced c0 recs (reqs ++ [status_request (utcnow_isoformat c0)])
         (hs ++ [length (tasks c)]) c'.
Proof.
  intros Hadv.
  destruct (exchange_message_runs env 2 (send_status_notification env) c)
    as (f & E & Hf & _).
  rewrite E. clear E.
  apply advanced_spawn in Hadv.
  assert (Hnow : utcnow_isoformat
                   (with__tasks (fun l => (l ++ [length (tasks c)])%list)
                      (with_tasks
                         (fun ts => (ts ++ [{| asyncio._state := asyncio.PENDING;
                                               asyncio.thrown := 0 |}])%list) c))
                 = utcnow_isoformat c0).
  { destruct Hadv as (_ & _ & _ & _ & _ & H & _). exact H. }
  eexists. split.
  - f_equal. unfold send_status_notification, lift,
      mbind, mret, M_bind, M_ret, bind, ret, modify, get.
    cbn beta iota. rewrite Hnow. reflexivity.
  - apply advanced_with_tasks; [exact Hf|].
    unfold send_status_notification, lift,
      mbind, mret, M_bind, M_ret, bind, ret, modify, get.
    cbn beta iota. cbn [fst]. rewrite Hnow. now apply advanced_with_sent.
Qed.

Lemma bind_unfold {S A B} (m : M S A) (k : A -> M S B) (s : S) :
  (m ≫= k) s
  = match m s with
    | (s1, Normal a) => k a s1
    | (s1, Raised e) => (s1, Raised e)
    end.
Proof. reflexivity. Qed.

(** The body of the [async with] of [run], by the answers of the peer. *)
Lemma session_eq (env : Environment) (con : Connection)
    (c0 : Client) (recs : list LogRecord) (reqs : list request)
    (hs : list nat) (c : Client) :
  advanced c0 recs reqs hs c ->
  let n := length (tasks c) in
  let now := utcnow_isoformat c0 in
  exists c',
    (c ← get;
     modify (with_csms_client {| id := cp_id c; _connection := con |});;
     make_handshake;;
     boot_notification_response ←
       exchange_message env 1 (send_boot_notification env);
     handle_boot_notification_response boot_notification_response;;
     exchange_message env 2 (send_status_notification env);;
     mret tt) c
    = (c', match call_boot env boot_request with
           | Raised e => Raised e
           | Normal None =>
               Raised (RuntimeError
                         "No response received with boot notification request.")
           | Normal (Some _) =>
               match call_status env (status_request now) with
               | Normal _ => Normal tt
               | Raised e => Raised e
               end
           end)
    /\ match call_boot env boot_request with
       | Normal (Some r) =>
           advanced c0 (recs ++ [boot_log (status r)])
             (reqs ++ [boot_request; status_request now])
             (hs ++ [n; S n; S (S n)]) c'
       | _ =>
           advanced c0 recs (reqs ++ [boot_request]) (hs ++ [n; S n]) c'
       end.
Proof.
  intros Hadv n now.
  pose proof (advanced_spawn _ _ _ _ _ (advanced_with_csms_client _ _ _ _ _
                {| id := cp_id c; _connection := con |} Hadv)) as H1.
  match type of H1 with advanced _ _ _ _ ?st => set (c1 := st) in * end.
  assert (L1 : length (tasks c1) = S n).
  { unfold c1. cbn [with__tasks with_tasks with_csms_client tasks].
    rewrite length_app. cbn [length]. unfold n. lia. }
  destruct (exchange_boot_advanced env c0 recs reqs _ c1 H1) as (c2 & E2 & H2).
  rewrite L1 in H2. rewrite <- app_assoc in H2. cbn [app] in H2.
  change (length (tasks (with_csms_client {| id := cp_id c; _connection := con |} c)))
    with n in H2.
  rewrite (bind_normal get _ c c c eq_refl).
  rewrite (bind_normal (modify _) _ c
             (with_csms_client {| id := cp_id c; _connection := con |} c) tt eq_refl).
  assert (EM : make_handshake
                 (with_csms_client {| id := cp_id c; _connection := con |} c)
               = (c1, Normal tt)) by reflexivity.
  rewrite (bind_normal make_handshake _ _ c1 tt EM).
  rewrite bind_unfold, E2.
  destruct (call_boot env boot_request) as [[r|]|e].
  - unfold handle_boot_notification_response.
    assert (E : (match status r with
                 | accepted => log INFO "Boot notification acknowledged!"
                 | pending => log INFO "Boot notification pending!"
                 | rejected => log WARNING "Boot notification rejected!"
                 end) c2 = (with_record (boot_log (status r)) c2, Normal tt))
      by (destruct (status r); reflexivity).
    rewrite bind_unfold, E. clear E.
    pose proof (advanced_with_record _ _ _ _ _ (boot_log (status r)) H2) as H3.
    assert (L3 : length (tasks (with_record (boot_log (status r)) c2))
                 = S (S n)).
    { destruct H2 as (_ & _ & _ & L & _). cbn [with_record tasks].
      rewrite L, length_app. cbn [length].
      destruct Hadv as (_ & _ & _ & L0 & _). unfold n. lia. }
    destruct (exchange_status_advanced env c0 _ _ _ _ H3) as (c4 & E4 & H4).
    rewrite L3 in H4. rewrite <- !app_assoc in H4. cbn [app] in H4.
    rewrite bind_unfold, E4. fold now.
    exists c4. split; [|exact H4].
    destruct (call_status env (status_request now)); reflexivity.
  - exists c2. split; [reflexivity | exact H2].
  - exists c2. split; [reflexivity | exact H2].
Qed.

(** The inner computation of [run], by the answers of the transport and of
    the peer. *)
Lemma inner_eq (env : Environment) (username password : string) (c : Client) :
  let con := {| uri := "ws://" ++ username ++ ":" ++ password ++ "@"
                       ++ settings.WEBSOCKET_IP ++ ":" ++ settings.WEBSOCKET_PORT
                       ++ "/" ++ cp_id c;
                subprotocols := settings.OCPP_SUBPROTOCOLS |} in
  let n := length (tasks c) in
  let now := utcnow_isoformat c in
  exists ci,
    async_with
      (con ← _create_connection username password;
       suspend env 0;;
       lift (connect env con);;
       mret con)
      (suspend env 3;; lift (close env))
      (fun con =>
         c ← get;
         modify (with_csms_client {| id := cp_id c; _connection := con |});;
         make_handshake;;
         boot_notification_response ←
           exchange_message env 1 (send_boot_notification env);
         handle_boot_notification_response boot_notification_response;;
         exchange_message env 2 (send_status_notification env);;
         mret tt) c
    = (ci,
       match connect env con with
       | Raised e => Raised e
       | Normal _ =>
           match close env with
           | Raised e => Raised e
           | Normal _ =>
               match call_boot env boot_request with
               | Raised e => Raised e
               | Normal None =>
                   Raised (RuntimeError
                             "No response received with boot notification request.")
               | Normal (Some _) =>
                   match call_status env (status_request now) with
                   | Normal _ => Normal tt
                   | Raised e => Raised e
                   end
               end
           end
       end)
    /\ match connect env con with
       | Raised _ => advanced c [] [] [] ci
       | Normal _ =>
           match call_boot env boot_request with
           | Normal (Some r) =>
               advanced c [boot_log (status r)]
                 [boot_request; status_request now] [n; S n; S (S n)] ci
           | _ => advanced c [] [boot_request] [n; S n] ci
           end
       end.
Proof.
  intros con n now.
  match goal with |- context [async_with _ _ ?b] => set (body := b) end.
  destruct (connection_eq env username password body c) as (f0 & Hf0 & H).
  fold con in H.
  pose proof (advanced_with_tasks _ _ _ _ _ f0 Hf0 (advanced_refl c)) as Ha.
  destruct (connect env con) as [[]|e].
  - destruct H as (f3 & Hf3 & E). rewrite E. clear E.
    destruct (session_eq env con c [] [] [] (with_tasks f0 c) Ha)
      as (cb & Eb & Hb).
    change (body con (with_tasks f0 c) = (cb,
              match call_boot env boot_request with
              | Normal (Some _) =>
                  match call_status env (status_request (utcnow_isoformat c)) with
                  | Normal _ => Normal tt
                  | Raised e => Raised e
                  end
              | Normal None =>
                  Raised (RuntimeError
                            "No response received with boot notification request.")
              | Raised e => Raised e
              end)) in Eb.
    rewrite Eb. cbn [fst snd].
    assert (Ln : length (tasks (with_tasks f0 c)) = n)
      by (cbn [with_tasks tasks]; apply Hf0).
    rewrite Ln in Hb. cbn [app] in Hb.
    exists (with_tasks f3 cb). split; [reflexivity|].
    destruct (call_boot env boot_request) as [[r|]|e];
      now apply advanced_with_tasks.
  - exists (with_tasks f0 c). split; [exact H | exact Ha].
Qed.

Lemma run_answered (env : Environment)
    (username password : string) (c : Client) (r : BootNotificationResult)
    (a : option StatusNotificationResult) :
  (forall con, connect env con = Normal tt) ->
  call_boot env boot_request = Normal (Some r) ->
  call_status env (status_request (utcnow_isoformat c)) = Normal a ->
  close env = Normal tt ->
  exists c1,
    run env username password c = (fst (finish_up c1), Normal tt)
    /\ advanced c [boot_log (status r)]
         [boot_request; status_request (utcnow_isoformat c)]
         [length (tasks c); S (length (tasks c)); S (S (length (tasks c)))] c1.
Proof.
  intros Hconnect Hboot Hstatus Hclose.
  destruct (inner_eq env username password c) as (ci & E & Hadv).
  cbv zeta in E, Hadv.
  unfold run. rewrite (supervisor_eq _ c ci _ E).
  rewrite Hconnect, Hclose, Hboot, Hstatus. rewrite Hconnect, Hboot in Hadv.
  exists ci. split; [reflexivity | exact Hadv].
Qed.

(** X9.  When the connection opens and closes without fault and the peer
    answers both calls, [run] returns normally after: three tasks created
    and registered (the read loop and the two calls, in that order), the
    boot request and then the status request handed to [call], and exactly
    one record logged, the one of the registration status.  The status
    notification is sent whatever the status is, Rejected included. *)
Theorem run_with_answering_peer (env : Environment)
    (username password : string) (c : Client) (r : BootNotificationResult)
    (a : option StatusNotificationResult) :
  (forall con, connect env con = Normal tt) ->
  call_boot env boot_request = Normal (Some r) ->
  call_status env (status_request (utcnow_isoformat c)) = Normal a ->
  close env = Normal tt ->
  let n := length (tasks c) in
  exists c1,
    run env username password c = (fst (finish_up c1), Normal tt)
    /\ records c1 = (records c ++ [boot_log (status r)])%list
    /\ sent c1
       = (sent c ++ [boot_request; status_request (utcnow_isoformat c)])%list
    /\ _tasks c1 = (_tasks c ++ [n; S n; S (S n)])%list
    /\ length (tasks c1) = (n + 3)%nat
    /\ finish_up_calls c1 = finish_up_calls c.
Proof.
  intros Hconnect Hboot Hstatus Hclose n.
  destruct (run_answered env username password c r a
              Hconnect Hboot Hstatus Hclose)
    as (c1 & E & H1 & H2 & H3 & H4 & H5 & _).
  exists c1. split; [exact E|]. cbn [length] in H4.
  split; [exact H1|]. split; [exact H2|]. split; [exact H3|].
  split; [unfold n; lia | exact H5].
Qed.

Lemma run_with_answering_peer_witness :
  (forall con, connect accepting_peer con = Normal tt)
  /\ close accepting_peer = Normal tt
  /\ exists c1,
       run accepting_peer "test" "123" charge_point
       = (fst (finish_up c1), Normal tt)
       /\ records c1
          = [{| level := INFO; message := "Boot notification acknowledged!" |}]
       /\ _tasks c1 = [0; 1; 2]%nat.
Proof.
  assert (A : forall con, connect accepting_peer con = Normal tt)
    by (intros con; reflexivity).
  split; [exact A|]. split; [reflexivity|].
  destruct (run_with_answering_peer accepting_peer "test" "123" charge_point
              {| current_time := "2024-01-01T00:00:00"; interval := 10;
                 status := accepted |}
              (Some ocpp.StatusNotificationPayload) A eq_refl eq_refl eq_refl)
    as (c1 & E & Hrec & _ & Htasks & _).
  exists c1. split; [exact E|]. split; [exact Hrec | exact Htasks].
Defined.

(** X10.  When entering the connection raises, [run] creates no task and
    sends nothing; the teardown still runs.
    A [WebSocketException] is logged as a refused connection and a
    [RuntimeError] as an unknown error, and [run] then returns normally; any
    other exception, such as the [OSError] of a refused TCP connection,
    leaves [run] with nothing logged. *)
Theorem run_when_connection_fails (env : Environment)
    (username password : string) (c : Client) (e : exn) :
  connect env {| uri := "ws://" ++ username ++ ":" ++ password ++ "@"
                        ++ settings.WEBSOCKET_IP ++ ":" ++ settings.WEBSOCKET_PORT
                        ++ "/" ++ cp_id c;
                 subprotocols := settings.OCPP_SUBPROTOCOLS |} = Raised e ->
  exists c1,
    run env username password c
    = (fst (finish_up c1), if leaves_run e then Raised e else Normal tt)
    /\ sent c1 = sent c
    /\ _tasks c1 = _tasks c
    /\ length (tasks c1) = length (tasks c)
    /\ finish_up_calls c1 = finish_up_calls c
    /\ records c1
       = (records c
          ++ match e with
             | WebSocketException _ =>
                 [{| level := ERROR;
                     message := "Connection refused from Server. Make sure you entered"
                                ++ " the correct credentials." |}]
             | RuntimeError _ =>
                 [{| level := ERROR;
                     message := "Unknown error happened on server." |}]
             | _ => []
             end)%list.
Proof.
  intros Hconnect.
  destruct (inner_eq env username password c) as (ci & E & Hadv).
  cbv zeta in E, Hadv.
  unfold run. rewrite (supervisor_eq _ c ci _ E).
  rewrite Hconnect. rewrite Hconnect in Hadv.
  destruct Hadv as (H1 & H2 & H3 & H4 & H5 & _).
  rewrite app_nil_r in H1, H2, H3. cbn [length] in H4. rewrite Nat.add_0_r in H4.
  destruct e; cbn [leaves_run];
    (eexists; split; [reflexivity|];
     cbn [with_record sent _tasks tasks finish_up_calls records];
     rewrite ?app_nil_r, ?H1; repeat split; assumption).
Qed.

Lemma run_when_connection_fails_witness :
  let down : Environment :=
    {| connect := fun _ => Raised (OtherError "ConnectionRefusedError" "refused");
       call_boot := fun _ => Normal None;
       call_status := fun _ => Normal None;
       close := Normal tt;
       meanwhile := fun _ => [] |} in
  exists c1,
    run down "test" "123" charge_point
    = (fst (finish_up c1),
       Raised (OtherError "ConnectionRefusedError" "refused"))
    /\ records c1 = [] /\ _tasks c1 = [].
Proof.
  intros down.
  destruct (run_when_connection_fails down "test" "123" charge_point
              (OtherError "ConnectionRefusedError" "refused") eq_refl)
    as (c1 & E & _ & Ht & _ & _ & Hr).
  exists c1. split; [exact E|]. split; [exact Hr | exact Ht].
Defined.

(** X11.  The status notification is sent only after a boot response was
    received and handled.  When the boot call raises, or has no response,
    [run] has handed the boot request alone to [call] and has created two
    tasks only, whatever happens when the connection is left.  When leaving
    the connection raises nothing, an exception [e] of the boot call is
    logged and swallowed if it is a [WebSocketException] or a
    [RuntimeError], and leaves [run] otherwise, a timeout of the call
    included. *)
Theorem failed_boot_call_ends_the_exchange (env : Environment)
    (username password : string) (c : Client) :
  (forall con, connect env con = Normal tt) ->
  (forall r, call_boot env boot_request <> Normal (Some r)) ->
  let n := length (tasks c) in
  (exists c1,
     fst (run env username password c) = fst (finish_up c1)
     /\ sent c1 = (sent c ++ [boot_request])%list
     /\ _tasks c1 = (_tasks c ++ [n; S n])%list
     /\ finish_up_calls c1 = finish_up_calls c)
  /\ (close env = Normal tt ->
      forall e, call_boot env boot_request = Raised e ->
      snd (run env username password c)
      = if leaves_run e then Raised e else Normal tt).
Proof.
  intros Hconnect Hboot n.
  destruct (inner_eq env username password c) as (ci & E & Hadv).
  cbv zeta in E, Hadv.
  unfold run. rewrite (supervisor_eq _ c ci _ E).
  rewrite Hconnect. rewrite Hconnect in Hadv.
  assert (Hadv' : advanced c [] [boot_request] [n; S n] ci).
  { destruct (call_boot env boot_request) as [[r|]|e]; [|exact Hadv..].
    now contradiction (Hboot r). }
  clear Hadv. destruct Hadv' as (H1 & H2 & H3 & _ & H5 & _).
  split.
  - match goal with |- context [match ?o with Normal _ => _ | Raised _ => _ end] =>
      destruct o as [[]|e] end;
      [|destruct e]; (eexists; split; [reflexivity|]);
      cbn [with_record sent _tasks finish_up_calls]; repeat split; assumption.
  - intros Hclose e He. rewrite Hclose, He. destruct e; reflexivity.
Qed.

Lemma failed_boot_call_ends_the_exchange_witness :
  let late : Environment :=
    {| connect := fun _ => Normal tt;
       call_boot := fun _ => Raised TimeoutError;
       call_status := fun _ => Normal None;
       close := Normal tt;
       meanwhile := fun _ => [] |} in
  (forall con, connect late con = Normal tt)
  /\ (forall r, call_boot late boot_request <> Normal (Some r))
  /\ snd (run late "test" "123" charge_point) = Raised TimeoutError
  /\ exists c1,
       fst (run late "test" "123" charge_point) = fst (finish_up c1)
       /\ sent c1 = [boot_request].
Proof.
  intros late.
  assert (A : forall con, connect late con = Normal tt)
    by (intros con; reflexivity).
  assert (B : forall r, call_boot late boot_request <> Normal (Some r))
    by (intros r H; inversion H).
  destruct (failed_boot_call_ends_the_exchange late "test" "123" charge_point
              A B) as ((c1 & E & Hs & _) & Hres).
  split; [exact A|]. split; [exact B|].
  split; [exact (Hres eq_refl TimeoutError eq_refl)|].
  exists c1. split; [exact E | exact Hs].
Defined.

Lemma supervisor_raised (ci : Client) (e : exn) :
  exists c1,
    match e with
    | WebSocketException _ =>
        (fst (finish_up
                (with_record
                   {| level := ERROR;
                      message := "Connection refused from Server. Make sure you entered"
                                 ++ " the correct credentials." |} ci)),
         Normal tt)
    | RuntimeError _ =>
        (fst (finish_up
                (with_record
                   {| level := ERROR;
                      message := "Unknown error happened on server." |} ci)),
         Normal tt)
    | _ => (fst (finish_up ci), Raised e)
    end
    = (fst (finish_up c1), if leaves_run e then Raised e else Normal tt)
    /\ advanced ci (handled_log e) [] [] c1.
Proof.
  destruct e; cbn [leaves_run handled_log];
    (eexists; split; [reflexivity|]);
    try apply advanced_refl;
    apply (advanced_with_record ci [] [] [] ci _ (advanced_refl ci)).
Qed.

Lemma advanced_trans c recs reqs hs c' recs' c'' :
  advanced c recs reqs hs c' -> advanced c' recs' [] [] c'' ->
  advanced c (recs ++ recs') reqs hs c''.
Proof.
  intros (H1 & H2 & H3 & H4 & H5 & H6 & H7) (G1 & G2 & G3 & G4 & G5 & G6 & G7).
  unfold advanced. rewrite app_nil_r in G2, G3. cbn [length] in G4.
  rewrite G1, G2, G3, G4, G5, G6, G7, H1, H2, H3, H4, app_assoc.
  repeat split; auto; lia.
Qed.

(** X12.  After a boot response was handled, an exception of the status
    call is treated like any other: the record of the registration status
    stays in the log, a [WebSocketException] or a [RuntimeError] adds its
    error record and [run] returns normally, any other exception leaves
    [run]; both requests were handed to [call] and three tasks registered.
    A status call without response is no error. *)
Theorem run_when_status_call_raises (env : Environment)
    (username password : string) (c : Client) (r : BootNotificationResult)
    (e : exn) :
  (forall con, connect env con = Normal tt) ->
  call_boot env boot_request = Normal (Some r) ->
  call_status env (status_request (utcnow_isoformat c)) = Raised e ->
  close env = Normal tt ->
  let n := length (tasks c) in
  exists c1,
    run env username password c
    = (fst (finish_up c1), if leaves_run e then Raised e else Normal tt)
    /\ records c1 = (records c ++ boot_log (status r) :: handled_log e)%list
    /\ sent c1
       = (sent c ++ [boot_request; status_request (utcnow_isoformat c)])%list
    /\ _tasks c1 = (_tasks c ++ [n; S n; S (S n)])%list.
Proof.
  intros Hconnect Hboot Hstatus Hclose n.
  destruct (inner_eq env username password c) as (ci & E & Hadv).
  cbv zeta in E, Hadv.
  unfold run. rewrite (supervisor_eq _ c ci _ E).
  rewrite Hconnect, Hclose, Hboot, Hstatus. rewrite Hconnect, Hboot in Hadv.
  destruct (supervisor_raised ci e) as (c1 & E1 & H1).
  exists c1. split; [exact E1|].
  destruct (advanced_trans _ _ _ _ _ _ _ Hadv H1) as (G1 & G2 & G3 & _).
  split; [exact G1|]. split; [exact G2 | exact G3].
Qed.

Lemma run_when_status_call_raises_witness :
  let dropping : Environment :=
    {| connect := fun _ => Normal tt;
       call_boot := fun _ =>
         Normal (Some {| current_time := "2024-01-01T00:00:00";
                         interval := 120; status := pending |});
       call_status := fun _ => Raised (WebSocketException "connection closed");
       close := Normal tt;
       meanwhile := fun _ => [] |} in
  exists c1,
    run dropping "test" "123" charge_point = (fst (finish_up c1), Normal tt)
    /\ records c1
       = [{| level := INFO; message := "Boot notification pending!" |};
          {| level := ERROR;
             message := "Connection refused from Server. Make sure you entered"
                        ++ " the correct credentials." |}].
Proof.
  intros dropping.
  destruct (run_when_status_call_raises dropping "test" "123" charge_point
              {| current_time := "2024-01-01T00:00:00";
                 interval := 120; status := pending |}
              (WebSocketException "connection closed")
              (fun _ => eq_refl) eq_refl eq_refl eq_refl)
    as (c1 & E & Hrec & _).
  exists c1. split; [exact E | exact Hrec].
Defined.

(** X13.  An exception raised on leaving the connection replaces the
    outcome of the session, whatever it was: the error of a missing boot
    response is then not reported, and [run] logs and returns, or fails, by
    the class of the exception of the exit alone. *)
Theorem exception_on_exit_replaces_outcome (env : Environment)
    (username password : string) (c : Client) (e : exn) :
  (forall con, connect env con = Normal tt) ->
  close env = Raised e ->
  exists c1,
    run env username password c
    = (fst (finish_up c1), if leaves_run e then Raised e else Normal tt)
    /\ records c1
       = (records c
          ++ match call_boot env boot_request with
             | Normal (Some r) => [boot_log (status r)]
             | _ => []
             end
          ++ handled_log e)%list.
Proof.
  intros Hconnect Hclose.
  destruct (inner_eq env username password c) as (ci & E & Hadv).
  cbv zeta in E, Hadv.
  unfold run. rewrite (supervisor_eq _ c ci _ E).
  rewrite Hconnect, Hclose. rewrite Hconnect in Hadv.
  destruct (supervisor_raised ci e) as (c1 & E1 & H1).
  exists c1. split; [exact E1|].
  destruct (call_boot env boot_request) as [[r|]|e0];
    destruct (advanced_trans _ _ _ _ _ _ _ Hadv H1) as (G1 & _);
    rewrite G1; now rewrite <- ?app_assoc.
Qed.

Lemma exception_on_exit_replaces_outcome_witness :
  let breaking : Environment :=
    {| connect := fun _ => Normal tt;
       call_boot := fun _ => Normal None;
       call_status := fun _ => Normal None;
       close := Raised (WebSocketException "closing failed");
       meanwhile := fun _ => [] |} in
  exists c1,
    run breaking "test" "123" charge_point = (fst (finish_up c1), Normal tt)
    /\ records c1
       = [{| level := ERROR;
             message := "Connection refused from Server. Make sure you entered"
                        ++ " the correct credentials." |}].
Proof.
  intros breaking.
  destruct (exception_on_exit_replaces_outcome breaking "test" "123"
              charge_point (WebSocketException "closing failed")
              (fun _ => eq_refl) eq_refl)
    as (c1 & E & Hrec).
  exists c1. split; [exact E | exact Hrec].
Defined.

Lemma length_fold_cancel (hs : list nat) (l : list asyncio.Task) :
  length (fold_left
            (fun l' h => alter (fun t => fst (asyncio.cancel t)) h l') hs l)
  = length l.
Proof.
  revert l. induction hs as [|h hs IH]; intros l; [reflexivity|].
  cbn [fold_left]. rewrite IH. apply length_alter.
Qed.

Lemma cancel_done (t : asyncio.Task) :
  asyncio.done t = true -> fst (asyncio.cancel t) = t.
Proof. intros H. unfold asyncio.cancel. now rewrite H. Qed.

(** X14.  [finish_up] does not clear [_tasks], logs nothing and sends
    nothing; it keeps the number of tasks of the loop, leaves every task
    that is not registered in [_tasks] as it was, and leaves every task that
    is already done as it was, registered or not. *)
Theorem finish_up_touches_pending_registered_tasks_only (c : Client) :
  let c1 := fst (finish_up c) in
  _tasks c1 = _tasks c
  /\ records c1 = records c
  /\ sent c1 = sent c
  /\ csms_client c1 = csms_client c
  /\ length (tasks c1) = length (tasks c)
  /\ (forall h, h ∉ _tasks c -> tasks c1 !! h = tasks c !! h)
  /\ (forall h t,
        tasks c !! h = Some t -> asyncio.done t = true ->
        tasks c1 !! h = Some t).
Proof.
  cbv zeta. split; [reflexivity|]. split; [reflexivity|].
  split; [reflexivity|]. split; [reflexivity|].
  split.
  { rewrite finish_up_eq. cbn [fst with_tasks tasks entered_finish_up _tasks].
    apply length_fold_cancel. }
  split.
  - intros h Hh. rewrite finish_up_lookup. now rewrite decide_False.
  - intros h t Hl Hd. rewrite finish_up_lookup, Hl.
    destruct (decide (h ∈ _tasks c)); [|reflexivity].
    cbn. now rewrite cancel_done.
Qed.

Lemma finish_up_touches_pending_registered_tasks_only_witness :
  let busy :=
    with_tasks
      (fun ts => (ts ++ [{| asyncio._state := asyncio.PENDING;
                            asyncio.thrown := 0 |}])%list) connected in
  (1%nat ∉ _tasks busy)
  /\ tasks (fst (finish_up busy)) !! 1%nat
     = Some {| asyncio._state := asyncio.PENDING; asyncio.thrown := 0 |}.
Proof.
  intros busy.
  assert (A : 1%nat ∉ _tasks busy).
  { cbn. intros H. apply list_elem_of_singleton in H. discriminate. }
  split; [exact A|].
  destruct (finish_up_touches_pending_registered_tasks_only busy)
    as (_ & _ & _ & _ & _ & H & _).
  rewrite (H 1%nat A). reflexivity.
Defined.

(** *** Invariants of [run] *)

Section RunKeeps.

(** An invariant that survives each primitive step of [run] survives
    [run]. *)
Variable I : Client -> Prop.
Hypothesis I_tasks : forall f c,
  (forall ts, length (f ts) = length ts) -> I c -> I (with_tasks f c).
Hypothesis I_spawn : forall c,
  I c ->
  I (with__tasks (fun l => (l ++ [length (tasks c)])%list)
       (with_tasks
          (fun ts => (ts ++ [{| asyncio._state := asyncio.PENDING;
                                asyncio.thrown := 0 |}])%list) c)).
Hypothesis I_csms_client : forall x c, I c -> I (with_csms_client x c).
Hypothesis I_record : forall r c, I c -> I (with_record r c).
Hypothesis I_sent : forall r c, I c -> I (with_sent r c).
Hypothesis I_entered : forall c, I c -> I (entered_finish_up c).

Lemma keeps_suspend env n : preserves I (suspend env n).
Proof.
  apply preserves_modify. intros c. apply I_tasks.
  intros ts. apply length_fold_finish.
Qed.

Lemma keeps_lift {A} (o : outcome A) : preserves I (lift o).
Proof. intros c H. exact H. Qed.

Lemma keeps_log l msg : preserves I (log l msg).
Proof. apply preserves_modify. intros c. apply I_record. Qed.

Lemma keeps_make_handshake : preserves I make_handshake.
Proof.
  intros c H. unfold make_handshake, ensure_future.
  unfold mbind, mret, M_bind, M_ret, bind, ret, raise, get, modify.
  destruct (csms_client c); [|exact H].
  now apply I_spawn.
Qed.

Lemma keeps_exchange_message {A} env n (func : M Client A) :
  preserves I func -> preserves I (exchange_message env n func).
Proof.
  intros Hf c H.
  destruct (exchange_message_runs env n func c) as (f & E & Hlen & _).
  rewrite E. cbn [fst]. apply I_tasks; [exact Hlen|].
  apply Hf. now apply I_spawn.
Qed.

Lemma keeps_finish_up : preserves I finish_up.
Proof.
  intros c H. rewrite finish_up_eq. cbn [fst].
  apply I_tasks; [intros ts; apply length_fold_cancel|]. now apply I_entered.
Qed.

Lemma keeps_run env username password :
  preserves I (run env username password).
Proof.
  unfold run. apply preserves_try_finally; [|apply keeps_finish_up].
  apply preserves_try_except.
  - apply preserves_async_with.
    + apply preserves_bind.
      { unfold _create_connection. apply preserves_bind; [apply preserves_get|].
        intros c. apply preserves_ret. }
      intros con. apply preserves_bind; [apply keeps_suspend|].
      intros _. apply preserves_bind; [apply keeps_lift|].
      intros _. apply preserves_ret.
    + apply preserves_bind; [apply keeps_suspend|].
      intros _. apply keeps_lift.
    + intros con. apply preserves_bind; [apply preserves_get|].
      intros c. apply preserves_bind.
      { apply preserves_modify. intros c'. apply I_csms_client. }
      intros _. apply preserves_bind; [apply keeps_make_handshake|].
      intros _. apply preserves_bind.
      { apply keeps_exchange_message. unfold send_boot_notification.
        apply preserves_bind.
        { apply preserves_modify. intros c'. apply I_sent. }
        intros _. apply preserves_bind; [apply keeps_lift|].
        intros r. apply preserves_ret. }
      intros r. apply preserves_bind.
      { destruct r as [r|]; [|apply preserves_raise].
        cbn. destruct (status r); apply keeps_log. }
      intros _. apply preserves_bind.
      { apply keeps_exchange_message. unfold send_status_notification.
        apply preserves_bind; [apply preserves_get|].
        intros c0. apply preserves_bind.
        { apply preserves_modify. intros c'. apply I_sent. }
        intros _. apply keeps_lift. }
      intros _. apply preserves_ret.
  - intros e h He. destruct e; inversion He; subst; apply keeps_log.
Qed.

End RunKeeps.

(** X15.  If the handles registered in [_tasks] are distinct and each names
    a task of the loop, they still are after [run], on every path and
    whatever the environment does: [run] never registers a task twice and
    never registers a handle that names no task. *)
Theorem run_keeps_handles_ok (env : Environment)
    (username password : string) (c : Client) :
  handles_ok c -> handles_ok (fst (run env username password c)).
Proof.
  apply (keeps_run handles_ok).
  - intros f c' Hf [Hnd Hlt]. split; [exact Hnd|].
    intros h Hh. cbn [with_tasks tasks]. rewrite Hf. now apply Hlt.
  - intros c' [Hnd Hlt]. split.
    + cbn [with__tasks with_tasks _tasks]. apply NoDup_app.
      split; [exact Hnd|]. split; [|apply NoDup_singleton].
      intros h Hh Hh'. apply list_elem_of_singleton in Hh'. subst h.
      apply Hlt in Hh. lia.
    + intros h Hh. cbn [with__tasks with_tasks _tasks tasks] in *.
      rewrite length_app. cbn [length].
      apply elem_of_app in Hh as [Hh|Hh].
      * apply Hlt in Hh. lia.
      * apply list_elem_of_singleton in Hh. subst h. lia.
  - intros x c' H. exact H.
  - intros r c' H. exact H.
  - intros r c' H. exact H.
  - intros c' H. exact H.
Qed.

Lemma run_keeps_handles_ok_witness :
  handles_ok connected
  /\ handles_ok (fst (run accepting_peer "test" "123" connected)).
Proof.
  assert (A : handles_ok connected).
  { split; [apply NoDup_singleton|].
    intros h Hh. apply list_elem_of_singleton in Hh. subst h. cbn. lia. }
  split; [exact A|].
  exact (run_keeps_handles_ok accepting_peer "test" "123" connected A).
Defined.

End ClientMore.

(** * The two programs together *)

Section EndToEnd.

Import Py ocpp example shape.

(** X16.  The answer of the server's boot-notification handler, handed to
    the client as the response of its boot call, is acknowledged: the
    client's handler logs "Boot notification acknowledged!" and raises
    nothing, and in a run whose connection opens and closes without fault
    [run] logs that record alone, goes on to send the status notification
    and returns normally. *)
Theorem server_answer_is_acknowledged
    (self : server.CSMSServer) (kw : kwargs) (s : server.Server)
    (env : client.Environment) (username password : string)
    (c : client.Client) :
  exists answer,
    server.on_boot_notification self kw s = (s, Normal answer)
    /\ interval answer = 10
    /\ client.handle_boot_notification_response (Some answer) c
       = (client.with_record
            {| level := INFO; message := "Boot notification acknowledged!" |} c,
          Normal tt)
    /\ ((forall con, client.connect env con = Normal tt) ->
        client.call_boot env boot_request = Normal (Some answer) ->
        (exists a,
           client.call_status env (status_request (client.utcnow_isoformat c))
           = Normal a) ->
        client.close env = Normal tt ->
        exists c1,
          client.run env username password c
          = (fst (client.finish_up c1), Normal tt)
          /\ client.records c1
             = (client.records c
                ++ [{| level := INFO;
                       message := "Boot notification acknowledged!" |}])%list
          /\ client.sent c1
             = (client.sent c
                ++ [boot_request;
                    status_request (client.utcnow_isoformat c)])%list).
Proof.
  eexists. split; [reflexivity|]. split; [reflexivity|].
  split; [reflexivity|].
  intros Hconnect Hboot [a Hstatus] Hclose.
  destruct (run_answered env username password c _ a
              Hconnect Hboot Hstatus Hclose) as (c1 & E & H1 & H2 & _).
  exists c1. split; [exact E|]. split; [exact H1 | exact H2].
Qed.

Lemma server_answer_is_acknowledged_witness :
  let self := {| server.id := "CP_01"; server._connection := station |} in
  let answering : client.Environment :=
    {| client.connect := fun _ => Normal tt;
       client.call_boot := fun _ =>
         match snd (server.on_boot_notification self DEmpty listening) with
         | Normal answer => Normal (Some answer)
         | Raised e => Raised e
         end;
       client.call_status := fun _ => Normal (Some StatusNotificationPayload);
       client.close := Normal tt;
       client.meanwhile := fun _ => [] |} in
  exists c1,
    client.run answering "test" "123" charge_point
    = (fst (client.finish_up c1), Normal tt)
    /\ client.records c1
       = [{| level := INFO; message := "Boot notification acknowledged!" |}].
Proof.
  intros self answering.
  destruct (server_answer_is_acknowledged self DEmpty listening answering
              "test" "123" charge_point) as (answer & Ea & _ & _ & H).
  assert (Hb : client.call_boot answering boot_request = Normal (Some answer)).
  { cbn [client.call_boot answering]. now rewrite Ea. }
  destruct (H (fun _ => eq_refl) Hb
              (ex_intro _ (Some StatusNotificationPayload) eq_refl) eq_refl)
    as (c1 & E & Hrec & _).
  exists c1. split; [exact E | exact Hrec].
Defined.

End EndToEnd.
